(** * Trivia API: the route handlers of [flaskr/__init__.py]

    A shallow embedding of the request handlers of the trivia backend
    (pagination helper, category and question listing, deletion, creation,
    substring search, questions by category, quiz selection, error
    handlers) together with the properties the specification states about
    them.

    The store is passed explicitly: every handler takes the store it reads
    and, when it writes, returns the store it leaves behind. *)

From Stdlib Require Import Ascii.
From stdpp Require Import base decidable option list sorting gmap strings pretty.

Open Scope Z_scope.

(** ** Python values *)

(** The scalars a JSON document carries, as Python reads them.  Floating
    point numbers are left out. *)
Inductive value :=
  | VNone
  | VBool (b : bool)
  | VInt (z : Z)
  | VStr (s : string).

(** The objects the handlers build and compare. *)
#[warnings="-register-all"]
Inductive pyobj :=
  | OVal (v : value)
  | ODict (d : gmap string value)
  | OTuple (l : list pyobj).

Inductive pytype := TNone | TBool | TInt | TStr | TDict | TTuple.

Definition type_of (o : pyobj) : pytype :=
  match o with
  | OVal VNone => TNone
  | OVal (VBool _) => TBool
  | OVal (VInt _) => TInt
  | OVal (VStr _) => TStr
  | ODict _ => TDict
  | OTuple _ => TTuple
  end.

Definition pytype_eqb (a b : pytype) : bool :=
  match a, b with
  | TNone, TNone | TBool, TBool | TInt, TInt
  | TStr, TStr | TDict, TDict | TTuple, TTuple => true
  | _, _ => false
  end.

(** [bool(o)]. *)
Definition truthy (o : pyobj) : bool :=
  match o with
  | OVal VNone => false
  | OVal (VBool b) => b
  | OVal (VInt z) => negb (z =? 0)%Z
  | OVal (VStr s) => negb (String.eqb s "")
  | ODict d => negb (bool_decide (d = ∅))
  | OTuple l => negb (bool_decide (length l = 0%nat))
  end.

(** [a or b]. *)
Definition py_or (a b : pyobj) : pyobj := if truthy a then a else b.

(** [str(v)], which is also what an f-string puts in place of [{v}]. *)
Definition py_str (v : value) : string :=
  match v with
  | VNone => "None"
  | VBool true => "True"
  | VBool false => "False"
  | VInt z => pretty z
  | VStr s => s
  end.

(** [v == 0]: an integer compares by value, [False] equals [0], anything
    else differs from it. *)
Definition py_eq_zero (v : value) : bool :=
  match v with
  | VInt z => (z =? 0)%Z
  | VBool b => negb b
  | _ => false
  end.

(** [d.get(k)]: the value under [k], [None] when the key is missing. *)
Definition dict_get (d : gmap string value) (k : string) : value :=
  default VNone (d !! k).

(** [l[start:stop]] on a list, with Python's treatment of bounds: a
    negative bound counts from the end, and every bound is clamped to
    [0 .. len(l)]. *)
Definition slice_bound (n i : Z) : Z :=
  if (i <? 0)%Z then Z.max (i + n) 0 else Z.min i n.

Definition py_slice {A} (l : list A) (start stop : Z) : list A :=
  let n := Z.of_nat (length l) in
  let lo := slice_bound n start in
  let hi := slice_bound n stop in
  take (Z.to_nat (hi - lo)) (drop (Z.to_nat lo) l).

(** ** The models the handlers import *)

(** Modelled from the spec: the module [models] (the classes [Question]
    and [Category] and the store behind them) is not among the sources.
    Section 3 of the specification gives the two record types; the handlers
    show the constructor's arguments and the attributes they read.  The
    fields of a question hold the scalars the request supplied. *)
Module Question.
Record t := mk {
  id : Z;
  question : value;
  answer : value;
  category : value;
  difficulty : value
}.
End Question.

Module Category.
Record t := mk {
  id : Z;
  type : string
}.
End Category.

(** The rows of the two tables, in the order the store returns them when a
    query names no order, and the next identifier the store assigns. *)
Record store := Store {
  questions : list Question.t;
  categories : list Category.t;
  next_id : Z
}.

(** Modelled from the spec: [Question.insert] (section 4.5: the question is
    inserted and the store assigns its id).  The row is added with the next
    identifier, which is then used up. *)
Definition question_insert (question answer category difficulty : value)
    (st : store)
    : Question.t * store :=
  let q := Question.mk (next_id st) question answer category difficulty in
  (q, Store (questions st ++ [q]) (categories st) (next_id st + 1)).

(** Modelled from the spec: [Question.delete] (section 4.4: the question
    looked up is deleted).  The row of that primary key leaves the table. *)
Definition question_delete (q : Question.t) (st : store) : store :=
  Store (filter (λ r, Question.id r ≠ Question.id q) (questions st))
        (categories st) (next_id st).

(** What the handlers take from their environment and the sources do not
    define: the dictionary [Question.format] builds, the store's comparison
    of the category column with a bound value, the text the store holds in
    the question column (nothing for NULL), and the interpreter's identity
    test between two objects of one type. *)
Class Env := {
  FQ : Type;
  format : Question.t → FQ;
  category_eq : value → value → bool;
  text_of : value → option string;
  text_of_str : ∀ s, text_of (VStr s) = Some s;
  same_object : pyobj → pyobj → bool
}.

(** [a is b]: two objects of different types are never the same object. *)
Definition py_is `{Env} (a b : pyobj) : bool :=
  if pytype_eqb (type_of a) (type_of b) then same_object a b else false.

(** ** Queries *)

(** [order_by(key)]: the rows by ascending key. *)
Definition key_le {A} (key : A → Z) : relation A := λ a b, key a ≤ key b.

#[global] Instance key_le_dec {A} (key : A → Z) : RelDecision (key_le key).
Proof. intros a b. unfold key_le. apply _. Defined.

Definition order_by {A} (key : A → Z) (rows : list A) : list A :=
  merge_sort (key_le key) rows.

(** [one_or_none()]: the only row, [None] when there is none, an exception
    when there are several. *)
Inductive exn :=
  | AttributeError
  | TypeError
  | KeyError
  | IndexError
  | UnboundLocalError
  | MultipleResultsFound.

Definition one_or_none {A} (rows : list A) : exn + option A :=
  match rows with
  | [] => inr None
  | [r] => inr (Some r)
  | _ => inl MultipleResultsFound
  end.

(** [{cate.id: cate.type for cate in categories}]: a later row replaces an
    earlier one of the same id. *)
Definition categories_dict (cats : list Category.t) : gmap Z string :=
  foldl (λ m c, <[Category.id c := Category.type c]> m) ∅ cats.

(** *** Pattern matching of the store ([ILIKE]) *)

(** Text is a sequence of bytes.  On ASCII text, where a byte is a
    character, the store folds the letters A to Z onto a to z, and so does
    [lower]; what the store does with the letters of other scripts, which
    take several bytes, is not modelled: the properties that compare
    letters both ways are stated for ASCII text ([ascii_only]). *)
Definition ascii_only_char (c : ascii) : bool :=
  (Ascii.N_of_ascii c <? 128)%N.

Fixpoint ascii_only (s : string) : bool :=
  match s with
  | EmptyString => true
  | String c s' => ascii_only_char c && ascii_only s'
  end.

Definition lower (c : ascii) : ascii :=
  let n := Ascii.N_of_ascii c in
  if (65 <=? n)%N && (n <=? 90)%N then Ascii.ascii_of_N (n + 32) else c.

Definition ascii_eqb_ci (a b : ascii) : bool :=
  bool_decide (lower a = lower b).

(** A pattern is a sequence of wildcards and literal characters: [%]
    stands for any run of characters, [_] for any one character, and a
    backslash makes the character after it literal.  (A pattern that ends
    in a lone backslash is an error in the store; the patterns built here
    end in [%].) *)
Inductive tok := Any | One | Lit (c : ascii).

Fixpoint like_tokens (p : string) : list tok :=
  match p with
  | EmptyString => []
  | String "\"%char (String c p') => Lit c :: like_tokens p'
  | String "%"%char p' => Any :: like_tokens p'
  | String "_"%char p' => One :: like_tokens p'
  | String c p' => Lit c :: like_tokens p'
  end.

Fixpoint like_match (p : list tok) (s : string) {struct p} : bool :=
  match p with
  | [] => match s with EmptyString => true | _ => false end
  | Lit c :: p' =>
      match s with
      | String a s' => ascii_eqb_ci c a && like_match p' s'
      | EmptyString => false
      end
  | One :: p' =>
      match s with
      | String _ s' => like_match p' s'
      | EmptyString => false
      end
  | Any :: p' =>
      (fix skip (s : string) : bool :=
         like_match p' s ||
         match s with
         | String _ s' => skip s'
         | EmptyString => false
         end) s
  end.

(** [column.ilike(pattern)]: NULL matches nothing. *)
Definition ilike `{Env} (column : value) (pattern : string) : bool :=
  match text_of column with
  | Some s => like_match (like_tokens pattern) s
  | None => false
  end.

(** The search term [t] occurs in [s], letter case aside. *)
Fixpoint lower_string (s : string) : string :=
  match s with
  | EmptyString => EmptyString
  | String c s' => String (lower c) (lower_string s')
  end.

Fixpoint prefix_ci (t s : string) : bool :=
  match t, s with
  | EmptyString, _ => true
  | String a t', String b s' => ascii_eqb_ci a b && prefix_ci t' s'
  | String _ _, EmptyString => false
  end.

Fixpoint substring_ci (t s : string) : bool :=
  prefix_ci t s ||
  match s with
  | String _ s' => substring_ci t s'
  | EmptyString => false
  end.

(** ** Requests and responses *)

(** A request: the [page] query argument as [int] reads it (absent, or
    not an integer literal, is [None]) and what [get_json()] returned: the
    JSON object of the body, or [None] when it returned [None].  (A call
    of [get_json()] that does not return but aborts is the matter of
    [json_failure] below.) *)
Record request := Request {
  page_arg : option Z;
  get_json : option (gmap string value)
}.

(** The body of a quiz request: [body.get('quiz_category')] and
    [body.get('previous_questions')]. *)
Record quiz_request := QuizRequest {
  quiz_category : option (gmap string value);
  previous_questions : list Z
}.

Section Handlers.
Context `{Env}.

(** A field of a JSON response. *)
Inductive field :=
  | FBool (b : bool)
  | FInt (z : Z)
  | FStr (s : string)
  | FQuestion (q : FQ)
  | FQuestions (l : list FQ)
  | FCategories (m : gmap Z string).

(** The dictionary given to [jsonify], key by key. *)
Definition payload := list (string * field).

Definition get_field (k : string) (p : payload) : option field :=
  snd <$> (snd <$> list_find (λ kv, kv.1 = k) p).

(** How a handler ends: it returns a body with a status, calls [abort],
    or lets an exception escape.  The handlers' [try] blocks re-raise
    whatever they catch, the exception of [abort] included, and so leave
    no trace here. *)
Inductive outcome :=
  | Return (status : Z) (body : payload)
  | Abort (code : Z)
  | Raise (e : exn).

(** [len(l)] as a field. *)
Definition FLen {A} (l : list A) : field := FInt (Z.of_nat (length l)).

(** *** Pagination *)

Definition QUESTIONS_PER_PAGE : Z := 10.

Definition paginate_questions (req : request) (selection : list Question.t)
    : list FQ :=
  let page := default 1 (page_arg req) in
  let start := (page - 1) * QUESTIONS_PER_PAGE in
  let end_ := start + QUESTIONS_PER_PAGE in
  let questions := format <$> selection in
  let current_questions := py_slice questions start end_ in
  current_questions.

(** *** GET /categories *)

Definition get_categories (st : store) : outcome :=
  let categories := order_by Category.id (categories st) in
  if bool_decide (length categories = 0%nat) then Abort 404
  else
    Return 200 [("success", FBool true);
                ("categories", FCategories (categories_dict categories))].

(** *** GET /questions *)

Definition get_questions (st : store) (req : request) : outcome :=
  let selection := order_by Question.id (questions st) in
  let current_questions := paginate_questions req selection in
  if bool_decide (current_questions = []) then Abort 404
  else
    let categories := categories st in
    Return 200 [("success", FBool true);
                ("questions", FQuestions current_questions);
                ("total_questions", FLen selection);
                ("categories", FCategories (categories_dict categories))].

(** *** DELETE /questions/<id> *)

Definition delete_question (st : store) (id : Z) : outcome * store :=
  match one_or_none (filter (λ q, Question.id q = id) (questions st)) with
  | inl e => (Raise e, st)
  | inr None => (Abort 404, st)
  | inr (Some question) =>
      let st' := question_delete question st in
      (Return 200 [("success", FBool true);
                   ("deleted", FInt id);
                   ("total_questions", FLen (questions st'))], st')
  end.

(** *** POST /questions *)

Definition create_new_question (st : store) (req : request)
    : outcome * store :=
  match get_json req with
  | None => (Raise AttributeError, st)
  | Some input =>
      let new_question := dict_get input "question" in
      let new_answer := dict_get input "answer" in
      let new_category := dict_get input "category" in
      let new_difficulty := dict_get input "difficulty" in
      if py_is (OTuple [ODict input; OVal new_question; OVal new_answer;
                        OVal new_category; OVal new_difficulty])
               (py_or (OVal VNone) (OVal (VStr "")))
      then (Abort 422, st)
      else
        let '(question, st') :=
          question_insert new_question new_answer new_category
                          new_difficulty st in
        let selection := order_by Question.id (questions st') in
        let current_questions := paginate_questions req selection in
        (Return 201 [("success", FBool true);
                     ("created", FInt (Question.id question));
                     ("questions", FQuestions current_questions);
                     ("total_questions", FLen selection)], st')
  end.

(** *** POST /questions/search *)

Definition search_questions (st : store) (req : request) : outcome :=
  match get_json req with
  | None => Raise AttributeError
  | Some body =>
      let search_input := dict_get body "searchTerm" in
      let selection :=
        filter (λ q, ilike (Question.question q)
                           ("%" +:+ py_str search_input +:+ "%"))
               (questions st) in
      if negb (bool_decide (length selection = 0%nat)) then
        let search_questions := paginate_questions req selection in
        Return 200 [("success", FBool true);
                    ("questions", FQuestions search_questions);
                    ("total_questions", FLen search_questions)]
      else Abort 404
  end.

(** *** GET /categories/<id>/questions *)

(** The two locals [questions] and [current_questions] are bound only
    when the category was found; the response reads them, and the
    category's [type], whatever the lookup gave. *)
Definition get_questions_by_category (st : store) (req : request) (id : Z)
    : outcome :=
  match one_or_none (filter (λ c, Category.id c = id) (categories st)) with
  | inl e => Raise e
  | inr category =>
      let locals :=
        match category with
        | Some _ =>
            let questions :=
              filter (λ q, category_eq (Question.category q)
                                       (VStr (pretty id)))
                     (questions st) in
            let current_questions := paginate_questions req questions in
            Some (questions, current_questions)
        | None => None
        end in
      match locals with
      | None => Raise UnboundLocalError
      | Some (questions, current_questions) =>
          match category with
          | None => Raise AttributeError
          | Some category =>
              Return 200 [("success", FBool true);
                          ("questions", FQuestions current_questions);
                          ("total_questions", FLen questions);
                          ("current_category",
                           FStr (Category.type category))]
          end
      end
  end.

(** *** POST /quizzes *)

(** [random.choice(l)] is [l[k]] for the number [k] below [len(l)] that the
    generator draws; the draw is an argument here. *)
Definition random_choice {A} (draw : nat) (l : list A) : exn + A :=
  match l !! draw with
  | Some x => inr x
  | None => inl IndexError
  end.

(** The [all_questions] of the quiz handler. *)
Definition quiz_candidates (st : store) (category_id : value)
    (previous_questions : list Z) : list Question.t :=
  if py_eq_zero category_id then
    filter (λ q, Question.id q ∉ previous_questions) (questions st)
  else
    filter (λ q, (Question.id q ∉ previous_questions)
                 ∧ category_eq (Question.category q) category_id = true)
           (questions st).

Definition play_quizzes_game (st : store) (body : option quiz_request)
    (draw : nat) : outcome :=
  match body with
  | None => Raise AttributeError
  | Some body =>
      let current_category := quiz_category body in
      let previous_questions := previous_questions body in
      match current_category with
      | None => Raise TypeError
      | Some current_category =>
          match current_category !! "id" with
          | None => Raise KeyError
          | Some category_id =>
              let all_questions :=
                quiz_candidates st category_id previous_questions in
              if negb (bool_decide (all_questions = [])) then
                match random_choice draw all_questions with
                | inl e => Raise e
                | inr next_question =>
                    Return 200 [("success", FBool true);
                                ("question",
                                 FQuestion (format next_question))]
                end
              else Return 200 [("success", FBool true)]
          end
      end
  end.

(** [request.get_json()] does not always return: the framework aborts
    with 400 when the body is not JSON it can parse, and with 415 when the
    request does not announce a JSON body. *)
Inductive json_failure := BadRequest | UnsupportedMediaType.

Definition failure_code (f : json_failure) : Z :=
  match f with
  | BadRequest => 400
  | UnsupportedMediaType => 415
  end.

(** The quiz handler from its first line: [get_json()] aborts or returns,
    and the handler goes on with what it returned. *)
Definition post_quizzes (st : store)
    (got : json_failure + option quiz_request) (draw : nat) : outcome :=
  match got with
  | inl f => Abort (failure_code f)
  | inr body => play_quizzes_game st body draw
  end.

(** *** Error handlers *)

(** The handlers of the source, each with the body and the status it
    returns; they do not read the error they are given. *)
Definition not_found : payload * Z :=
  ([("success", FBool false); ("error", FInt 404);
    ("message", FStr "resource not found")], 404).

Definition unprocessed : payload * Z :=
  ([("success", FBool false); ("error", FInt 422);
    ("message", FStr "request cannot be processed")], 422).

Definition bad_request : payload * Z :=
  ([("success", FBool false); ("error", FInt 400);
    ("message", FStr "bad request")], 400).

Definition not_allowed : payload * Z :=
  ([("success", FBool false); ("error", FInt 405);
    ("message", FStr "method not alllowed")], 405).

Definition unauthorized : payload * Z :=
  ([("success", FBool false); ("error", FInt 401);
    ("message", FStr "the client must authenticate")], 401).

Definition request_time_out : payload * Z :=
  ([("success", FBool false); ("error", FInt 408);
    ("message", FStr "request time out")], 408).

Definition internal_server_error : payload * Z :=
  ([("success", FBool false); ("error", FInt 500);
    ("message", FStr "internal server error")], 500).

Definition not_implemented : payload * Z :=
  ([("success", FBool false); ("error", FInt 501);
    ("message", FStr "not implement")], 501).

Definition service_unavailable : payload * Z :=
  ([("success", FBool false); ("error", FInt 503);
    ("message", FStr "service unavailable")], 503).

Definition gateway_timeout : payload * Z :=
  ([("success", FBool false); ("error", FInt 504);
    ("message", FStr "gateway timeout")], 504).

(** The registrations: the code given to [errorhandler] and the handler
    registered for it, in the order of the source. *)
Definition error_handlers : list (Z * (payload * Z)) :=
  [(404, not_found);
   (422, unprocessed);
   (400, bad_request);
   (405, not_allowed);
   (401, unauthorized);
   (408, request_time_out);
   (500, internal_server_error);
   (501, not_implemented);
   (503, service_unavailable);
   (504, gateway_timeout)].

(** The handler the framework calls for a code, if one is registered. *)
Definition errorhandler (code : Z) : option (payload * Z) :=
  match list_find (λ h, h.1 = code) error_handlers with
  | Some (_, (_, handler)) => Some handler
  | None => None
  end.

(** What the client receives: the handler's own response; for an abort,
    the body and status returned by the handler registered for its code
    (the framework's own page, no JSON, when none is); for an escaped
    exception, what the handler registered for 500 returns (the
    application not running in debug mode, where the framework hands the
    exception on instead). *)
Definition respond (o : outcome) : Z * option payload :=
  match o with
  | Return status body => (status, Some body)
  | Abort code =>
      match errorhandler code with
      | Some (body, status) => (status, Some body)
      | None => (code, None)
      end
  | Raise _ =>
      match errorhandler 500 with
      | Some (body, status) => (status, Some body)
      | None => (500, None)
      end
  end.

Definition status (o : outcome) : Z := (respond o).1.

(** *** What the queries select *)

(** The questions the search selects, before pagination. *)
Definition search_matches (st : store) (term : value) : list Question.t :=
  filter (λ q, ilike (Question.question q) ("%" +:+ py_str term +:+ "%"))
         (questions st).

(** The questions of a category, before pagination. *)
Definition category_matches (st : store) (id : Z) : list Question.t :=
  filter (λ q, category_eq (Question.category q) (VStr (pretty id)))
         (questions st).

End Handlers.

(** ** Terms without wildcards *)

(** A term none of whose characters the pattern language reads as a
    wildcard or as the escape character. *)
Definition plain_char (c : ascii) : bool :=
  negb (bool_decide (c = "%"%char)) && negb (bool_decide (c = "_"%char))
  && negb (bool_decide (c = "\"%char)).

Fixpoint plain_term (t : string) : bool :=
  match t with
  | EmptyString => true
  | String c t' => plain_char c && plain_term t'
  end.

Fixpoint lits (t : string) : list tok :=
  match t with
  | EmptyString => []
  | String c t' => Lit c :: lits t'
  end.


(** ** Terms without the escape character *)

(** The token of a character that is not the escape character. *)
Definition tok_of (c : ascii) : tok :=
  if bool_decide (c = "%"%char) then Any
  else if bool_decide (c = "_"%char) then One
  else Lit c.

Fixpoint toks (t : string) : list tok :=
  match t with
  | EmptyString => []
  | String c t' => tok_of c :: toks t'
  end.

Fixpoint no_escape (t : string) : bool :=
  match t with
  | EmptyString => true
  | String c t' => negb (bool_decide (c = "\"%char)) && no_escape t'
  end.

(** ** The application: routes, responses, headers *)

(** The methods of a request.  [HEAD] and [OPTIONS], which the framework
    answers by itself, are left out. *)
Inductive method := GET | POST | PUT | PATCH | DELETE.

#[global] Instance method_eq_dec : EqDecision method.
Proof. solve_decision. Defined.

(** A piece of a route: fixed text, or the converter [<int:id>], which
    accepts a non-empty run of digits.  The digits read here are the
    ASCII digits; the converter of the framework also reads the decimal
    digits of other scripts, which take several bytes: the properties of
    routing are stated for ASCII paths ([ascii_only]). *)
Inductive segment := Static (s : string) | IntArg.

Fixpoint digits_value (acc : Z) (s : string) : option Z :=
  match s with
  | EmptyString => Some acc
  | String c s' =>
      match Ascii.is_nat c with
      | Some d => digits_value (acc * 10 + Z.of_nat d) s'
      | None => None
      end
  end.

Definition int_converter (s : string) : option Z :=
  match s with
  | EmptyString => None
  | _ => digits_value 0 s
  end.

(** The view functions, by name. *)
Inductive endpoint :=
  | ep_get_categories
  | ep_get_questions
  | ep_delete_question
  | ep_create_new_question
  | ep_search_questions
  | ep_get_questions_by_category
  | ep_play_quizzes_game.

Record rule := Rule {
  rule_path : list segment;
  rule_methods : list method;
  rule_endpoint : endpoint
}.

(** The routes [create_app] registers, in the order of the source; a
    route without [methods] is a [GET] route. *)
Definition url_map : list rule :=
  [Rule [Static "categories"] [GET] ep_get_categories;
   Rule [Static "questions"] [GET] ep_get_questions;
   Rule [Static "questions"; IntArg] [DELETE] ep_delete_question;
   Rule [Static "questions"] [POST] ep_create_new_question;
   Rule [Static "questions"; Static "search"] [POST] ep_search_questions;
   Rule [Static "categories"; IntArg; Static "questions"] [GET]
        ep_get_questions_by_category;
   Rule [Static "quizzes"] [POST] ep_play_quizzes_game].

(** A path, split at its slashes, against a route: the converted
    arguments when every piece fits. *)
Fixpoint match_path (pattern : list segment) (path : list string)
    : option (list Z) :=
  match pattern, path with
  | [], [] => Some []
  | Static s :: pattern', x :: path' =>
      if decide (s = x) then match_path pattern' path' else None
  | IntArg :: pattern', x :: path' =>
      match int_converter x with
      | Some i =>
          match match_path pattern' path' with
          | Some args => Some (i :: args)
          | None => None
          end
      | None => None
      end
  | _, _ => None
  end.

(** The framework's choice of a view: the first route that fits the path
    and allows the method; 405 when routes fit the path but none allows
    the method, 404 when no route fits the path. *)
Definition dispatch (m : method) (path : list string)
    : Z + endpoint * list Z :=
  match list_find (λ r, is_Some (match_path (rule_path r) path)
                        ∧ m ∈ rule_methods r) url_map with
  | Some (_, r) =>
      inr (rule_endpoint r, default [] (match_path (rule_path r) path))
  | None =>
      if bool_decide (Exists (λ r, is_Some (match_path (rule_path r) path))
                             url_map)
      then inl 405 else inl 404
  end.

(** A request as the application receives it: method, path, query
    argument and JSON body as the creation and search handlers read them
    ([request]), and the body as the quiz handler reads it.  These are
    the requests whose body [get_json()] reads without aborting. *)
Record http_request := Http {
  http_method : method;
  http_path : list string;
  http_args : request;
  http_quiz : option quiz_request
}.

(** The ids unique and below the next id: what the store keeps true of its
    questions. *)
Definition wf_store (st : store) : Prop :=
  NoDup (Question.id <$> questions st)
  ∧ Forall (λ q, Question.id q < next_id st) (questions st).

Section App.
Context `{Env}.

(** A response: its status, the headers the application's own
    [after_request] puts on it, and its body.  The headers of the
    framework and of the CORS extension are not listed. *)
Record response := Response {
  status_code : Z;
  headers : list (string * string);
  data : option payload
}.

Definition make_response (r : Z * option payload) : response :=
  Response r.1 [] r.2.

(** [headers.add] appends a header; it replaces none. *)
Definition headers_add (resp : response) (name text : string) : response :=
  Response (status_code resp) (headers resp ++ [(name, text)]) (data resp).

Definition after_request (resp : response) : response :=
  let resp :=
    headers_add resp "Access-Control-Allow-Headers"
                "Content-Type, Authorization" in
  let resp :=
    headers_add resp "Access-Control-Allow-Methods"
                "GET, POST, PATCH, DELETE, OPTIONS" in
  let resp := headers_add resp "Access-Control-Allow-Origin" "*" in
  resp.

(** The call of a view function with the arguments of its route. *)
Definition call_view (e : endpoint) (args : list Z) (st : store)
    (r : http_request) (draw : nat) : outcome * store :=
  match e, args with
  | ep_get_categories, [] => (get_categories st, st)
  | ep_get_questions, [] => (get_questions st (http_args r), st)
  | ep_delete_question, [id] => delete_question st id
  | ep_create_new_question, [] => create_new_question st (http_args r)
  | ep_search_questions, [] => (search_questions st (http_args r), st)
  | ep_get_questions_by_category, [id] =>
      (get_questions_by_category st (http_args r) id, st)
  | ep_play_quizzes_game, [] =>
      (play_quizzes_game st (http_quiz r) draw, st)
  | _, _ => (Raise TypeError, st)
  end.

(** One request through the application: routing, the view, the error
    handlers, and [after_request] on whatever response results. *)
Definition serve (st : store) (r : http_request) (draw : nat)
    : response * store :=
  let '(o, st') :=
    match dispatch (http_method r) (http_path r) with
    | inl code => (Abort code, st)
    | inr (e, args) => call_view e args st r draw
    end in
  (after_request (make_response (respond o)), st').

(** *** The test suite ([test_flaskr.py])

    Each test is the conjunction of its assertions on the response of the
    request it sends, for the store the test finds. *)

(** [json.loads(res.data)[k]]. *)
Definition data_field (res : response) (k : string) : option field :=
  match data res with
  | Some body => get_field k body
  | None => None
  end.

(** [assertTrue(x)] on a field: a non-zero number, a non-empty list or
    dictionary. *)
Definition field_truthy (f : option field) : Prop :=
  match f with
  | Some (FBool b) => b = true
  | Some (FInt z) => z ≠ 0
  | Some (FStr s) => s ≠ ""
  | Some (FQuestion _) => True
  | Some (FQuestions l) => l ≠ []
  | Some (FCategories m) => m ≠ ∅
  | None => False
  end.

Definition client (st : store) (m : method) (path : list string)
    (page : option Z) (json : option (gmap string value)) : response :=
  (serve st (Http m path (Request page json) None) 0).1.

Definition newQuestion : gmap string value :=
  list_to_map
    [("question",
      VStr "I was 15 ten years ago. What is my age after the next 10 years?");
     ("answer", VStr "35"); ("difficulty", VInt 1); ("category", VInt 1)].

Definition test_post_categories_not_allowed (st : store) : Prop :=
  let res := client st POST ["categories"] None None in
  status_code res = 405 ∧ data_field res "success" = Some (FBool false).

Definition test_get_all_categories (st : store) : Prop :=
  let res := client st GET ["categories"] None None in
  status_code res = 200
  ∧ data_field res "success" = Some (FBool true)
  ∧ field_truthy (data_field res "categories").

Definition test_get_questions_pagebypage (st : store) : Prop :=
  let res := client st GET ["questions"] None None in
  status_code res = 200
  ∧ data_field res "success" = Some (FBool true)
  ∧ (∃ l, data_field res "questions" = Some (FQuestions l) ∧ l ≠ [])
  ∧ field_truthy (data_field res "total_questions")
  ∧ (∃ m, data_field res "categories" = Some (FCategories m) ∧ m ≠ ∅).

Definition test_number_of_page_exceed (st : store) : Prop :=
  let res := client st GET ["questions"] (Some 7) None in
  status_code res = 404
  ∧ data_field res "success" = Some (FBool false)
  ∧ data_field res "message" = Some (FStr "resource not found").

Definition test_delete_question (st : store) : Prop :=
  let '(res, st') :=
    serve st (Http DELETE ["questions"; "4"] (Request None None) None) 0 in
  let question :=
    one_or_none (filter (λ q, Question.id q = 4) (questions st')) in
  status_code res = 200
  ∧ data_field res "success" = Some (FBool true)
  ∧ question = inr None.

Definition test_delete_notexisted_question (st : store) : Prop :=
  let res := client st DELETE ["questions"; "170"] None None in
  status_code res = 422
  ∧ data_field res "success" = Some (FBool false)
  ∧ data_field res "message" = Some (FStr "request cannot be processed").

Definition test_create_new_question (st : store) : Prop :=
  let res := client st POST ["questions"] None (Some newQuestion) in
  status_code res = 200 ∧ data_field res "success" = Some (FBool true).

Definition test_create_new_question_not_allow (st : store) : Prop :=
  let res := client st DELETE ["questions"] None (Some newQuestion) in
  status_code res = 405 ∧ data_field res "success" = Some (FBool false).

Definition test_search (st : store) : Prop :=
  let res :=
    client st POST ["questions"; "search"] None
           (Some {[ "searchTerm" := VStr "What" ]}) in
  status_code res = 200 ∧ data_field res "success" = Some (FBool true).

Definition test_search_404 (st : store) : Prop :=
  let res :=
    client st POST ["questions"; "search"] None
           (Some {[ "searchTerm" := VStr "ssag" ]}) in
  status_code res = 404
  ∧ data_field res "success" = Some (FBool false)
  ∧ data_field res "message" = Some (FStr "resource not found").

Definition test_questions_in_category (st : store) : Prop :=
  let res := client st GET ["categories"; "1"; "questions"] None None in
  status_code res = 200
  ∧ data_field res "success" = Some (FBool true)
  ∧ data_field res "current_category" = Some (FStr "Science").

Definition test_questions_in_category_not_found (st : store) : Prop :=
  let res := client st GET ["categories"; "100"; "questions"] None None in
  status_code res = 404 ∧ data_field res "success" = Some (FBool false).

Definition test_quiz_not_found_category (st : store) (draw : nat) : Prop :=
  let quiz :=
    QuizRequest (Some {[ "type" := VStr "None"; "id" := VStr "None" ]}) [1] in
  let res :=
    (serve st (Http POST ["quizzes"] (Request None None) (Some quiz)) draw).1 in
  status_code res = 422 ∧ data_field res "success" = Some (FBool false).

End App.

(** ** A sample environment and sample data

    Used to evaluate the handlers on concrete requests: questions are
    formatted as themselves, the category column is compared by text, the
    question column holds text only. *)

#[local] Instance sample_env : Env := {|
  FQ := Question.t;
  format := λ q, q;
  category_eq := λ a b, bool_decide (py_str a = py_str b);
  text_of := λ v, match v with VStr s => Some s | _ => None end;
  text_of_str := λ s, eq_refl;
  same_object := λ _ _, false
|}.

Definition sample_question (i : Z) : Question.t :=
  Question.mk i (VStr "Who wrote it?") (VStr "Somebody") (VStr "1") (VInt 1).

Definition science : Category.t := Category.mk 1 "Science".
Definition art : Category.t := Category.mk 2 "Art".

(** Two questions, stored out of id order, and two categories. *)
Definition small_store : store :=
  Store [sample_question 2; sample_question 1] [science; art] 3.

(** One question in each of two categories. *)
Definition science_question : Question.t :=
  Question.mk 1 (VStr "Who wrote it?") (VStr "Somebody") (VStr "1") (VInt 1).

Definition art_question : Question.t :=
  Question.mk 2 (VStr "Who painted it?") (VStr "Somebody else") (VStr "2")
              (VInt 1).

Definition mixed_store : store :=
  Store [science_question; art_question] [science; art] 3.

(** Eleven questions of one category. *)
Definition eleven_store : store :=
  Store (sample_question <$> [1; 2; 3; 4; 5; 6; 7; 8; 9; 10; 11]) [science] 12.

(** Twenty-five questions. *)
Definition many_questions : list Question.t :=
  sample_question <$> seqZ 1 25.

(** The body of a creation request with its four fields. *)
Definition full_body : gmap string value :=
  list_to_map [("question", VStr "Why?"); ("answer", VStr "Because");
               ("category", VInt 1); ("difficulty", VInt 1)].

(** The body of a search request. *)
Definition search_body (term : string) : gmap string value :=
  {[ "searchTerm" := VStr term ]}.

(** The body of a quiz request for category [C]. *)
Definition quiz_body (C : value) (previous : list Z) : option quiz_request :=
  Some (QuizRequest (Some (<["id" := C]> ∅)) previous).

(** * Properties *)

(** ** Slices *)

Section Slices.
Context {A : Type}.
Implicit Types l : list A.

Lemma slice_bound_range n i : 0 ≤ n → 0 ≤ slice_bound n i ≤ n.
Proof. intros Hn. unfold slice_bound. destruct (i <? 0) eqn:E; lia. Qed.

Lemma py_slice_nonneg l a b :
  0 ≤ a → a ≤ b →
  py_slice l a b = take (Z.to_nat (b - a)) (drop (Z.to_nat a) l).
Proof.
  intros Ha Hab. unfold py_slice, slice_bound.
  assert ((a <? 0) = false) as -> by lia.
  assert ((b <? 0) = false) as -> by lia.
  destruct (decide (Z.of_nat (length l) ≤ a)) as [Hge|Hlt].
  - rewrite !(drop_ge l) by lia. by rewrite !take_nil.
  - replace (Z.min a (Z.of_nat (length l))) with a by lia.
    destruct (decide (b ≤ Z.of_nat (length l))) as [Hb|Hb].
    + by replace (Z.min b (Z.of_nat (length l))) with b by lia.
    + rewrite !take_ge; [done | rewrite length_drop; lia..].
Qed.

Lemma py_slice_beyond l a b : Z.of_nat (length l) ≤ a → py_slice l a b = [].
Proof.
  intros Ha. unfold py_slice, slice_bound.
  assert ((a <? 0) = false) as -> by lia.
  rewrite (drop_ge l) by lia. apply take_nil.
Qed.

Lemma py_slice_negative l a b :
  a < 0 → b < 0 →
  py_slice l a b =
    let n := Z.of_nat (length l) in
    take (Z.to_nat (Z.max (b + n) 0 - Z.max (a + n) 0))
         (drop (Z.to_nat (Z.max (a + n) 0)) l).
Proof.
  intros Ha Hb. unfold py_slice, slice_bound.
  assert ((a <? 0) = true) as -> by lia.
  by assert ((b <? 0) = true) as -> by lia.
Qed.

Lemma py_slice_to_zero l a : a < 0 → py_slice l a 0 = [].
Proof.
  intros Ha. unfold py_slice, slice_bound.
  assert ((a <? 0) = true) as -> by lia.
  assert ((0 <? 0) = false) as -> by lia.
  replace (Z.to_nat _) with 0%nat by lia. done.
Qed.

Lemma py_slice_length l a b :
  a ≤ b → (length (py_slice l a b) ≤ Z.to_nat (b - a))%nat.
Proof.
  intros Hab. unfold py_slice, slice_bound. rewrite length_take, length_drop.
  destruct (a <? 0) eqn:Ea, (b <? 0) eqn:Eb; lia.
Qed.

(** A slice is a run of consecutive elements of the list. *)
Lemma py_slice_run l a b : ∃ before after, l = before ++ py_slice l a b ++ after.
Proof.
  unfold py_slice.
  exists (take (Z.to_nat (slice_bound (Z.of_nat (length l)) a)) l).
  eexists (drop _ (drop _ l)).
  by rewrite !take_drop.
Qed.

Lemma py_slice_elem_of l a b x : x ∈ py_slice l a b → x ∈ l.
Proof.
  intros Hx. destruct (py_slice_run l a b) as (l1 & l2 & E).
  rewrite E, !elem_of_app. auto.
Qed.

Lemma py_slice_fmap {B} (f : A → B) l a b :
  py_slice (f <$> l) a b = f <$> py_slice l a b.
Proof. unfold py_slice. by rewrite length_fmap, fmap_take, fmap_drop. Qed.

End Slices.

(** ** Queries *)

Lemma filter_none {A} (P : A → Prop) `{!∀ x, Decision (P x)} (l : list A) :
  (∀ x, x ∈ l → ¬ P x) → filter P l = [].
Proof.
  intros Hl. destruct (filter P l) as [|x l'] eqn:E; [done|].
  assert (x ∈ filter P l) as [Hx Hin]%list_elem_of_filter by (rewrite E; left).
  by destruct (Hl x Hin).
Qed.

Section Queries.
Context {A : Type} (key : A → Z).
Implicit Types rows : list A.

#[local] Instance key_le_trans : Transitive (key_le key).
Proof. intros a b c. unfold key_le. lia. Qed.

#[local] Instance key_le_total : Total (key_le key).
Proof. intros a b. unfold key_le. lia. Qed.

Lemma order_by_perm rows : order_by key rows ≡ₚ rows.
Proof. apply merge_sort_Permutation. Qed.

Lemma order_by_length rows : length (order_by key rows) = length rows.
Proof. by rewrite order_by_perm. Qed.

Lemma order_by_elem_of rows r : r ∈ order_by key rows ↔ r ∈ rows.
Proof. by rewrite order_by_perm. Qed.

Lemma order_by_sorted rows : StronglySorted (key_le key) (order_by key rows).
Proof. apply StronglySorted_merge_sort; apply _. Qed.

Lemma order_by_nil rows : order_by key rows = [] ↔ rows = [].
Proof.
  split; [|by intros ->].
  intros E. apply Permutation_nil_r. by rewrite <-E, order_by_perm.
Qed.

(** A slice of a sorted list is sorted. *)
Lemma py_slice_sorted rows a b :
  StronglySorted (key_le key) rows →
  StronglySorted (key_le key) (py_slice rows a b).
Proof.
  intros Hs. destruct (py_slice_run rows a b) as (l1 & l2 & E).
  rewrite E in Hs.
  eapply StronglySorted_app_1_l, StronglySorted_app_1_r, Hs.
Qed.

(** The only row of a given key, when keys are not repeated. *)
Lemma filter_key_unique rows r :
  NoDup (key <$> rows) → r ∈ rows →
  filter (λ x, key x = key r) rows = [r].
Proof.
  induction rows as [|x rows IH]; intros Hnd Hr; [by inv Hr|].
  rewrite fmap_cons, NoDup_cons in Hnd. destruct Hnd as [Hx Hnd].
  rewrite filter_cons. apply elem_of_cons in Hr as [->|Hr].
  - rewrite decide_True by done. f_equal.
    apply filter_none. intros y Hy Hk.
    apply Hx. rewrite <-Hk. by apply list_elem_of_fmap_2.
  - rewrite decide_False; [by apply IH|].
    intros Hk. apply Hx. rewrite Hk. by apply list_elem_of_fmap_2.
Qed.

Lemma filter_key_others_length rows r :
  NoDup (key <$> rows) → r ∈ rows →
  S (length (filter (λ x, key x ≠ key r) rows)) = length rows.
Proof.
  intros Hnd Hr.
  rewrite <-(filter_app_complement (λ x, key x = key r) rows) at 2.
  by rewrite length_app, filter_key_unique.
Qed.

Lemma filter_key_absent rows k :
  k ∉ key <$> rows → filter (λ x, key x = k) rows = [].
Proof.
  intros Hk. apply filter_none. intros x Hx E.
  apply Hk. rewrite <-E. by apply list_elem_of_fmap_2.
Qed.

End Queries.

(** The dictionary of categories. *)
Lemma categories_dict_snoc cats c :
  categories_dict (cats ++ [c]) =
    <[Category.id c := Category.type c]> (categories_dict cats).
Proof. unfold categories_dict. by rewrite foldl_app. Qed.

Lemma categories_dict_dom cats k :
  k ∈ dom (categories_dict cats) ↔ k ∈ Category.id <$> cats.
Proof.
  induction cats as [|c cats IH] using rev_ind.
  - unfold categories_dict. simpl. rewrite dom_empty.
    split; [by intros ?%elem_of_empty | by intros ?%elem_of_nil].
  - rewrite categories_dict_snoc, dom_insert, fmap_app, elem_of_union,
      elem_of_app, IH, elem_of_singleton. simpl.
    rewrite list_elem_of_singleton. tauto.
Qed.

Lemma categories_dict_lookup cats k v :
  NoDup (Category.id <$> cats) →
  categories_dict cats !! k = Some v ↔ Category.mk k v ∈ cats.
Proof.
  induction cats as [|[ci ct] cats IH] using rev_ind; intros Hnd.
  - unfold categories_dict. simpl. rewrite lookup_empty.
    split; [done|]. by intros ?%elem_of_nil.
  - rewrite fmap_app, NoDup_app in Hnd. destruct Hnd as (Hnd & Hfresh & _).
    rewrite categories_dict_snoc, elem_of_app, list_elem_of_singleton. simpl.
    destruct (decide (ci = k)) as [<-|Hne].
    + rewrite lookup_insert_eq. split.
      * intros [= <-]. by right.
      * intros [Hin|[= <-]]; [|done]. exfalso.
        eapply Hfresh; [by apply (list_elem_of_fmap_2 Category.id), Hin|].
        simpl. by left.
    + rewrite lookup_insert_ne by done. rewrite IH by done.
      split; [by left|]. intros [?|[= ? ?]]; [done|]. by destruct Hne.
Qed.

(** ** Patterns *)

Lemma like_tokens_plain_char c p :
  plain_char c = true → like_tokens (String c p) = Lit c :: like_tokens p.
Proof.
  destruct c as [[] [] [] [] [] [] [] []]; try discriminate; try done;
    by destruct p.
Qed.

Lemma like_tokens_plain t rest :
  plain_term t = true → like_tokens (t +:+ rest) = lits t ++ like_tokens rest.
Proof.
  induction t as [|c t IH]; [done|].
  intros [Hc Ht]%andb_prop.
  change (String c t +:+ rest) with (String c (t +:+ rest)).
  rewrite like_tokens_plain_char by done. simpl. by rewrite IH.
Qed.

Lemma like_match_any p s :
  like_match (Any :: p) s =
    like_match p s ||
    match s with
    | String _ s' => like_match (Any :: p) s'
    | EmptyString => false
    end.
Proof. by destruct s. Qed.

Lemma like_match_any_end s : like_match [Any] s = true.
Proof.
  induction s as [|a s IH]; [done|].
  rewrite like_match_any, IH. apply orb_true_r.
Qed.

Lemma like_match_lits t s : like_match (lits t ++ [Any]) s = prefix_ci t s.
Proof.
  revert s. induction t as [|c t IH]; intros s.
  - apply like_match_any_end.
  - destruct s as [|a s]; [done|]. simpl. by rewrite IH.
Qed.

Lemma like_match_contains t s :
  like_match (Any :: lits t ++ [Any]) s = substring_ci t s.
Proof.
  induction s as [|a s IH].
  - rewrite like_match_any, like_match_lits. by destruct t.
  - rewrite like_match_any, like_match_lits, IH. by destruct t.
Qed.

(** [substring_ci] is containment of the term, letter case aside. *)
Lemma prefix_ci_spec t s :
  prefix_ci t s = true ↔
    ∃ mid post, s = mid +:+ post ∧ lower_string mid = lower_string t.
Proof.
  revert s. induction t as [|a t IH]; intros s.
  - split; [|done]. intros _. by exists "", s.
  - destruct s as [|b s]; simpl.
    + split; [done|]. intros (mid & post & E & Hl).
      destruct mid; discriminate.
    + rewrite andb_true_iff, IH. unfold ascii_eqb_ci.
      rewrite bool_decide_eq_true. split.
      * intros [Hab (mid & post & -> & Hl)].
        exists (String b mid), post. simpl. by rewrite Hl, Hab.
      * intros (mid & post & E & Hl). destruct mid as [|m mid]; [done|].
        injection E as <- ->. injection Hl as Hm Hl. eauto.
Qed.

Lemma substring_ci_spec t s :
  substring_ci t s = true ↔
    ∃ pre mid post,
      s = pre +:+ mid +:+ post ∧ lower_string mid = lower_string t.
Proof.
  induction s as [|b s IH]; simpl; rewrite orb_true_iff, prefix_ci_spec.
  - split.
    + intros [(mid & post & E & Hl)|]; [|done]. by exists "", mid, post.
    + intros (pre & mid & post & E & Hl). left.
      destruct pre; [|done]. by exists mid, post.
  - rewrite IH. split.
    + intros [(mid & post & E & Hl)|(pre & mid & post & -> & Hl)].
      * by exists "", mid, post.
      * by exists (String b pre), mid, post.
    + intros (pre & mid & post & E & Hl). destruct pre as [|c pre].
      * left. by exists mid, post.
      * right. injection E as <- ->. by exists pre, mid, post.
Qed.

Section Properties.
Context `{Env}.

Lemma ilike_plain_term (t s : string) :
  plain_term t = true →
  ilike (VStr s) ("%" +:+ t +:+ "%") = substring_ci t s.
Proof.
  intros Ht. unfold ilike. rewrite text_of_str.
  change ("%" +:+ t +:+ "%") with (String "%"%char (t +:+ "%")).
  change (like_tokens (String "%" (t +:+ "%")))
    with (Any :: like_tokens (t +:+ "%")).
  rewrite like_tokens_plain by done. apply like_match_contains.
Qed.

(** ** The pagination helper *)

Lemma paginate_questions_unfold req selection :
  paginate_questions req selection =
    format <$> py_slice selection ((default 1 (page_arg req) - 1) * 10)
                                  ((default 1 (page_arg req) - 1) * 10 + 10).
Proof. unfold paginate_questions. by rewrite py_slice_fmap. Qed.

Lemma paginate_questions_py_slice req selection :
  paginate_questions req selection =
    py_slice (format <$> selection) ((default 1 (page_arg req) - 1) * 10)
                                    (default 1 (page_arg req) * 10).
Proof.
  unfold paginate_questions, QUESTIONS_PER_PAGE. f_equal. lia.
Qed.

Lemma paginate_questions_length req selection :
  (length (paginate_questions req selection) ≤ 10)%nat.
Proof.
  unfold paginate_questions, QUESTIONS_PER_PAGE.
  etrans; [apply py_slice_length; lia|]. lia.
Qed.

(** C1: the pagination helper returns the slice from [(P-1)*10] to [P*10]
    of the formatted list, where [P] is the requested page, 1 when the
    request names none.  From page 1 on this is the ten items that follow
    the first [(P-1)*10]; it is empty as soon as the start index reaches
    the length of the list.  No lower bound is checked: for [P <= 0] the
    start index is negative and the slice is taken as Python takes it,
    empty for page 0 and counted from the end of the list below that. *)
Theorem paginate_questions_slice (req : request) (L : list Question.t) :
  let P := default 1 (page_arg req) in
  let formatted := format <$> L in
  let n := Z.of_nat (length L) in
  paginate_questions req L = py_slice formatted ((P - 1) * 10) (P * 10)
  ∧ (1 ≤ P →
     paginate_questions req L =
       take 10 (drop (Z.to_nat ((P - 1) * 10)) formatted))
  ∧ (n ≤ (P - 1) * 10 → paginate_questions req L = [])
  ∧ (P ≤ 0 → (P - 1) * 10 < 0)
  ∧ (P = 0 → paginate_questions req L = [])
  ∧ (P < 0 →
     paginate_questions req L =
       take (Z.to_nat (Z.max (P * 10 + n) 0 - Z.max ((P - 1) * 10 + n) 0))
            (drop (Z.to_nat (Z.max ((P - 1) * 10 + n) 0)) formatted)).
Proof.
  intros P formatted n.
  assert (paginate_questions req L = py_slice formatted ((P - 1) * 10) (P * 10))
    as Hdef by apply paginate_questions_py_slice.
  assert (Z.of_nat (length formatted) = n) as Hlen.
  { unfold formatted, n. by rewrite length_fmap. }
  split; [done|]. rewrite Hdef. repeat split.
  - intros HP. rewrite py_slice_nonneg by lia. do 2 f_equal. lia.
  - intros Hn. apply py_slice_beyond. lia.
  - lia.
  - intros ->. by apply py_slice_to_zero.
  - intros HP. rewrite py_slice_negative by lia. cbv zeta. by rewrite Hlen.
Qed.

(** ** GET /questions *)

(** C2: the listing of questions answers with the requested page of the
    questions ordered by id.  When that page is not empty (so the store
    holds a question) the response is a success whose questions are in
    ascending id order and at most ten, and whose total is the number of
    all questions of the store; when the page is empty, beyond the data
    included, the handler aborts with 404. *)
Theorem get_questions_page (st : store) (req : request) :
  let selection := order_by Question.id (questions st) in
  let page := paginate_questions req selection in
  (page ≠ [] →
     questions st ≠ []
     ∧ get_questions st req =
         Return 200 [("success", FBool true);
                     ("questions", FQuestions page);
                     ("total_questions",
                      FInt (Z.of_nat (length (questions st))));
                     ("categories",
                      FCategories (categories_dict (categories st)))]
     ∧ (length page ≤ 10)%nat
     ∧ ∃ rows, page = format <$> rows
         ∧ StronglySorted (key_le Question.id) rows
         ∧ ∀ q, q ∈ rows → q ∈ questions st)
  ∧ (page = [] →
     get_questions st req = Abort 404
     ∧ status (get_questions st req) = 404).
Proof.
  intros selection page. split.
  - intros Hpage. split; [|split; [|split]].
    + intros Hnil. apply Hpage. unfold page, selection.
      rewrite Hnil. unfold paginate_questions.
      replace (order_by Question.id []) with (@nil Question.t) by done.
      unfold py_slice. simpl. by rewrite drop_nil, take_nil.
    + unfold get_questions. fold selection. fold page.
      rewrite bool_decide_eq_false_2 by done.
      unfold FLen, selection. by rewrite order_by_length.
    + apply paginate_questions_length.
    + eexists. split; [apply paginate_questions_unfold|]. split.
      * apply py_slice_sorted, order_by_sorted.
      * intros q Hq. apply (order_by_elem_of Question.id).
        eapply py_slice_elem_of, Hq.
  - intros Hpage. unfold status, get_questions. fold selection. fold page.
    by rewrite bool_decide_eq_true_2.
Qed.

(** X5: page 0 of the listing is empty, whatever the store holds, and is
    answered with 404. *)
Theorem get_questions_page_zero (st : store)
    (body : option (gmap string value)) :
  paginate_questions (Request (Some 0) body)
    (order_by Question.id (questions st)) = []
  ∧ get_questions st (Request (Some 0) body) = Abort 404.
Proof.
  assert (paginate_questions (Request (Some 0) body)
            (order_by Question.id (questions st)) = []) as E.
  { rewrite paginate_questions_py_slice. simpl. by apply py_slice_to_zero. }
  split; [done|]. unfold get_questions. by rewrite E.
Qed.

(** ** GET /categories *)

(** C9: with at least one category in the store, the listing of
    categories is a success whose [categories] field maps the id of every
    category to its display string, read from all the categories in id
    order, whatever page the request names (the handler reads no request);
    with no category it aborts with 404. *)
Theorem get_categories_mapping (st : store) :
  (categories st ≠ [] →
     let m := categories_dict (order_by Category.id (categories st)) in
     get_categories st =
       Return 200 [("success", FBool true); ("categories", FCategories m)]
     ∧ (∀ k, k ∈ dom m ↔ k ∈ Category.id <$> categories st)
     ∧ (NoDup (Category.id <$> categories st) →
        ∀ k v, m !! k = Some v ↔ Category.mk k v ∈ categories st))
  ∧ (categories st = [] →
     get_categories st = Abort 404 ∧ status (get_categories st) = 404).
Proof.
  split.
  - intros Hne m. split; [|split].
    + unfold get_categories. rewrite bool_decide_eq_false_2; [done|].
      rewrite order_by_length. by destruct (categories st).
    + intros k. unfold m. rewrite categories_dict_dom.
      by rewrite order_by_perm.
    + intros Hnd k v. unfold m. rewrite categories_dict_lookup.
      * apply order_by_elem_of.
      * by rewrite order_by_perm.
  - intros Hnil. unfold status, get_categories. by rewrite Hnil.
Qed.

(** ** DELETE /questions/<id> *)

(** C7: deleting an id the store holds removes that question, so that
    looking the id up afterwards finds nothing, and answers with success,
    [deleted] being the id and [total_questions] the number of questions
    left; deleting an id the store does not hold aborts with 404 and
    leaves the store as it was.  Ids are unique in the store. *)
Theorem delete_question_outcome (st : store) (id : Z) :
  (∀ q, NoDup (Question.id <$> questions st) →
        q ∈ questions st → Question.id q = id →
     let st' := (delete_question st id).2 in
     (delete_question st id).1 =
       Return 200 [("success", FBool true);
                   ("deleted", FInt id);
                   ("total_questions",
                    FInt (Z.of_nat (length (questions st'))))]
     ∧ one_or_none (filter (λ r, Question.id r = id) (questions st'))
         = inr None
     ∧ (id ∉ Question.id <$> questions st')
     ∧ (∀ r, r ∈ questions st' ↔ r ∈ questions st ∧ r ≠ q)
     ∧ S (length (questions st')) = length (questions st)
     ∧ categories st' = categories st)
  ∧ (id ∉ Question.id <$> questions st →
     delete_question st id = (Abort 404, st)
     ∧ status (delete_question st id).1 = 404).
Proof.
  split.
  - intros q Hnd Hq <-. unfold delete_question.
    rewrite (filter_key_unique Question.id) by done. simpl.
    assert (Question.id q ∉ Question.id <$>
              filter (λ r, Question.id r ≠ Question.id q) (questions st))
      as Hgone.
    { intros (r & Hid & [Hr _]%list_elem_of_filter)%list_elem_of_fmap.
      by destruct Hr. }
    split; [done|]. split; [|split; [done|split; [|split; [|done]]]].
    + by rewrite (filter_key_absent Question.id).
    + intros r. rewrite list_elem_of_filter. split.
      * intros [Hr Hin]. split; [done|]. by intros ->.
      * intros [Hin Hr]. split; [|done]. intros Hid. apply Hr.
        assert (r ∈ filter (λ x, Question.id x = Question.id q) (questions st))
          as Hr' by by apply list_elem_of_filter.
        rewrite (filter_key_unique Question.id) in Hr' by done.
        by apply list_elem_of_singleton in Hr'.
    + by apply (filter_key_others_length Question.id).
  - intros Hid. unfold status, delete_question.
    by rewrite (filter_key_absent Question.id).
Qed.

(** ** POST /questions *)

Lemma validation_is_false (input : gmap string value) (q a c d : value) :
  py_is (OTuple [ODict input; OVal q; OVal a; OVal c; OVal d])
        (py_or (OVal VNone) (OVal (VStr ""))) = false.
Proof. reflexivity. Qed.

Lemma create_new_question_unfold (st : store) (page : option Z)
    (input : gmap string value) :
  let req := Request page (Some input) in
  let new := Question.mk (next_id st)
               (dict_get input "question") (dict_get input "answer")
               (dict_get input "category") (dict_get input "difficulty") in
  let st' := Store (questions st ++ [new]) (categories st) (next_id st + 1) in
  create_new_question st req =
    (Return 201
       [("success", FBool true);
        ("created", FInt (next_id st));
        ("questions",
         FQuestions
           (paginate_questions req (order_by Question.id (questions st'))));
        ("total_questions", FInt (Z.of_nat (length (questions st'))))],
     st').
Proof.
  intros req new st'. unfold create_new_question, req.
  cbn [get_json]. rewrite validation_is_false.
  unfold question_insert, FLen. by rewrite order_by_length.
Qed.

(** C4: the validation of the creation handler never fires.  The tuple of
    the body and the four extracted fields is not the object that
    [None or ""] evaluates to, whatever the body holds, so no request is
    answered by the 422 of that branch; a body with empty or missing
    fields is inserted like any other. *)
Theorem create_new_question_never_rejects :
  (∀ (input : gmap string value) (q a c d : value),
     py_or (OVal VNone) (OVal (VStr "")) = OVal (VStr "")
     ∧ py_is (OTuple [ODict input; OVal q; OVal a; OVal c; OVal d])
             (py_or (OVal VNone) (OVal (VStr ""))) = false)
  ∧ (∀ st req, (create_new_question st req).1 ≠ Abort 422)
  ∧ (∀ st page input,
       let new := Question.mk (next_id st)
                    (dict_get input "question") (dict_get input "answer")
                    (dict_get input "category") (dict_get input "difficulty") in
       questions (create_new_question st (Request page (Some input))).2
         = questions st ++ [new]
       ∧ ∃ body, (create_new_question st (Request page (Some input))).1
                   = Return 201 body).
Proof.
  split; [|split].
  - intros. split; [done|]. apply validation_is_false.
  - intros st [page [input|]]; [|done].
    by rewrite create_new_question_unfold.
  - intros st page input new. rewrite create_new_question_unfold. simpl.
    split; [done|]. by eexists.
Qed.

(** C8 (as amended): creating a question from a JSON object answers 201
    with success, [created] the id the store assigned to the new question,
    [total_questions] the number of questions after the insertion (one
    more than before), and [questions] the page of all the questions in id
    order that the request's [page] argument names; that is the first page,
    the first ten, when the request has no such argument or names page 1. *)
Theorem create_new_question_response (st : store) (page : option Z)
    (input : gmap string value) :
  let req := Request page (Some input) in
  let st' := (create_new_question st req).2 in
  let all := format <$> order_by Question.id (questions st') in
  (create_new_question st req).1 =
    Return 201
      [("success", FBool true);
       ("created", FInt (next_id st));
       ("questions",
        FQuestions
          (py_slice all ((default 1 page - 1) * 10) (default 1 page * 10)));
       ("total_questions", FInt (Z.of_nat (length (questions st'))))]
  ∧ (∃ new, questions st' = questions st ++ [new]
            ∧ Question.id new = next_id st
            ∧ Question.question new = dict_get input "question"
            ∧ Question.answer new = dict_get input "answer"
            ∧ Question.category new = dict_get input "category"
            ∧ Question.difficulty new = dict_get input "difficulty")
  ∧ length (questions st') = S (length (questions st))
  ∧ (default 1 page = 1 →
     py_slice all ((default 1 page - 1) * 10) (default 1 page * 10)
       = take 10 all).
Proof.
  intros req st' all. unfold st', all, req.
  rewrite create_new_question_unfold. simpl. split; [|split; [|split]].
  - by rewrite paginate_questions_py_slice.
  - by eexists.
  - rewrite length_app. simpl. lia.
  - intros ->. by rewrite py_slice_nonneg by lia.
Qed.

(** ** POST /questions/search *)

Lemma search_questions_unfold (st : store) (page : option Z)
    (body : gmap string value) :
  let req := Request page (Some body) in
  let matches := search_matches st (dict_get body "searchTerm") in
  search_questions st req =
    if bool_decide (matches = []) then Abort 404
    else
      Return 200
        [("success", FBool true);
         ("questions", FQuestions (paginate_questions req matches));
         ("total_questions",
          FInt (Z.of_nat (length (paginate_questions req matches))))].
Proof.
  intros req matches. unfold search_questions, req. cbn [get_json].
  fold (search_matches st (dict_get body "searchTerm")). fold matches.
  by destruct matches.
Qed.

(** X1: for an ASCII term free of wildcards, a question whose text is
    ASCII is selected by the search exactly when it is in the store and its
    text contains the term, the case of the letters A to Z aside. *)
Theorem search_matches_plain (st : store) (term : string) (q : Question.t) :
  plain_term term = true →
  ascii_only term = true →
  (∀ s, text_of (Question.question q) = Some s → ascii_only s = true) →
  q ∈ search_matches st (VStr term) ↔
    q ∈ questions st
    ∧ ∃ s, text_of (Question.question q) = Some s
           ∧ substring_ci term s = true.
Proof.
  intros Hplain _ _. unfold search_matches. rewrite list_elem_of_filter.
  unfold ilike. simpl py_str.
  change ("%" +:+ term +:+ "%") with (String "%"%char (term +:+ "%")).
  change (like_tokens (String "%" (term +:+ "%")))
    with (Any :: like_tokens (term +:+ "%")).
  rewrite like_tokens_plain by done.
  destruct (text_of (Question.question q)) as [s|].
  - rewrite like_match_contains. split.
    + intros [Hs Hq]. split; [done|]. exists s. split; [done|].
      by apply Is_true_true.
    + intros [Hq (s' & [= <-] & Hs)]. split; [|done]. by apply Is_true_true.
  - split; [by intros [[] _]|]. by intros [_ (s & ? & _)].
Qed.

(** C6 (the code at the failing input): the term [_] is a wildcard of the
    pattern language, so the search answers with a question whose text
    does not contain it. *)
Theorem search_questions_wildcard :
  let q := Question.mk 1 (VStr "Who wrote it?") (VStr "Somebody")
             (VStr "1") (VInt 1) in
  let st := Store [q] [] 2 in
  let req := Request None (Some {[ "searchTerm" := VStr "_" ]}) in
  search_questions st req =
    Return 200 [("success", FBool true);
                ("questions", FQuestions [format q]);
                ("total_questions", FInt 1)]
  ∧ substring_ci "_" "Who wrote it?" = false.
Proof.
  intros q st req. split; [|done]. unfold req.
  rewrite search_questions_unfold.
  assert (search_matches st
            (dict_get ({[ "searchTerm" := VStr "_" ]} : gmap string value)
                      "searchTerm") = [q]) as ->.
  { unfold search_matches, st. simpl questions.
    rewrite filter_cons, decide_True; [done|].
    unfold ilike, q. simpl Question.question. by rewrite text_of_str. }
  done.
Qed.

(** C10: in a success response of the search the total is the length of
    the page returned, so at most ten, and not the number of questions
    that match: with more than ten matches it is below that number.  The
    listing of questions, for the same store, gives the number of all
    questions as its total. *)
Theorem search_total_is_page_length (st : store) (req : request)
    (code : Z) (body : payload) :
  search_questions st req = Return code body →
  ∃ input page,
    get_json req = Some input
    ∧ page = paginate_questions req
               (search_matches st (dict_get input "searchTerm"))
    ∧ body = [("success", FBool true);
              ("questions", FQuestions page);
              ("total_questions", FInt (Z.of_nat (length page)))]
    ∧ (length page ≤ 10)%nat
    ∧ ((10 < length (search_matches st (dict_get input "searchTerm")))%nat →
       (length page <
          length (search_matches st (dict_get input "searchTerm")))%nat)
    ∧ ∀ code' body',
        get_questions st req = Return code' body' →
        get_field "total_questions" body'
          = Some (FInt (Z.of_nat (length (questions st)))).
Proof.
  destruct req as [page [input|]]; [|done].
  rewrite search_questions_unfold. cbv zeta.
  case_bool_decide as Hm; [done|]. intros [= <- <-].
  exists input. eexists. split; [done|]. split; [done|]. split; [done|].
  pose proof (paginate_questions_length (Request page (Some input))
    (search_matches st (dict_get input "searchTerm"))) as Hlen.
  split; [done|]. split; [simpl in *; lia|].
  intros code' body'. unfold get_questions.
  case_bool_decide; [done|]. intros [= <- <-].
  unfold FLen. by rewrite order_by_length.
Qed.

(** ** GET /categories/<id>/questions *)

(** C5 (as amended): for the id of a category of the store, the handler
    answers with success, [questions] being the page the request names,
    ten to a page, of the questions whose category field equals the string
    form of the id, [total_questions] the number of all of them and
    [current_category] the display string of the category; every question
    returned is one of those, and all of them are returned when they are
    at most ten and the request names no page.  For an id of no category
    an exception escapes the handler, raised by the reading of the page
    that was never computed, and the client receives status 500 with the
    body of the registered 500 handler, not 404. *)
Theorem get_questions_by_category_outcome (st : store) (req : request)
    (id : Z) :
  (∀ c, NoDup (Category.id <$> categories st) →
        c ∈ categories st → Category.id c = id →
     let matching := category_matches st id in
     get_questions_by_category st req id =
       Return 200
         [("success", FBool true);
          ("questions", FQuestions (paginate_questions req matching));
          ("total_questions", FInt (Z.of_nat (length matching)));
          ("current_category", FStr (Category.type c))]
     ∧ (∀ q, q ∈ matching ↔
             q ∈ questions st
             ∧ category_eq (Question.category q) (VStr (pretty id)) = true)
     ∧ (∃ rows, paginate_questions req matching = format <$> rows
                ∧ ∀ q, q ∈ rows → q ∈ matching)
     ∧ (page_arg req = None → (length matching ≤ 10)%nat →
        paginate_questions req matching = format <$> matching))
  ∧ (id ∉ Category.id <$> categories st →
     get_questions_by_category st req id = Raise UnboundLocalError
     ∧ respond (get_questions_by_category st req id)
         = (500, Some [("success", FBool false);
                       ("error", FInt 500);
                       ("message", FStr "internal server error")])
     ∧ status (get_questions_by_category st req id) ≠ 404).
Proof.
  split.
  - intros c Hnd Hc <- matching. unfold get_questions_by_category.
    rewrite (filter_key_unique Category.id) by done. simpl.
    fold (category_matches st (Category.id c)). fold matching.
    split; [done|]. split; [|split].
    + intros q. unfold matching, category_matches.
      rewrite list_elem_of_filter, Is_true_true. tauto.
    + eexists. split; [apply paginate_questions_unfold|].
      intros q. apply py_slice_elem_of.
    + intros Hpage Hlen. rewrite paginate_questions_py_slice, Hpage. simpl.
      rewrite py_slice_nonneg by lia. simpl.
      apply take_ge. rewrite length_fmap. lia.
  - intros Hid. unfold status, get_questions_by_category.
    by rewrite (filter_key_absent Category.id).
Qed.

(** ** POST /quizzes *)

Lemma quiz_candidates_elem_of (st : store) (C : value) (PQ : list Z) q :
  q ∈ quiz_candidates st C PQ ↔
    q ∈ questions st ∧ (Question.id q ∉ PQ)
    ∧ (py_eq_zero C = false → category_eq (Question.category q) C = true).
Proof.
  unfold quiz_candidates. destruct (py_eq_zero C);
    rewrite list_elem_of_filter.
  - split; [intros [? ?]; by repeat split | intros (? & ? & _); auto].
  - split; [intros [[? ?] ?]; auto | intros (? & ? & Hc); auto].
Qed.

Lemma play_quizzes_game_unfold (st : store) (cat : gmap string value)
    (C : value) (PQ : list Z) (draw : nat) :
  play_quizzes_game st (Some (QuizRequest (Some (<["id" := C]> cat)) PQ)) draw
  = match quiz_candidates st C PQ with
    | [] => Return 200 [("success", FBool true)]
    | _ :: _ =>
        match quiz_candidates st C PQ !! draw with
        | Some q => Return 200 [("success", FBool true);
                                ("question", FQuestion (format q))]
        | None => Raise IndexError
        end
    end.
Proof.
  unfold play_quizzes_game. simpl. rewrite lookup_insert_eq.
  unfold random_choice.
  destruct (quiz_candidates st C PQ) as [|q l] eqn:E; [done|].
  rewrite bool_decide_eq_false_2 by done. simpl.
  by destruct ((q :: l) !! draw).
Qed.

Lemma py_eq_zero_true (C : value) :
  py_eq_zero C = true ↔ C = VInt 0 ∨ C = VBool false.
Proof.
  destruct C as [|[]|z|s]; simpl; try (split; [done|by intros [|]]).
  - split; [auto|done].
  - rewrite Z.eqb_eq. split; [by intros ->; left|by intros [[= ->]|]].
Qed.

Lemma py_eq_zero_false (C : value) :
  py_eq_zero C = false ↔ C ≠ VInt 0 ∧ C ≠ VBool false.
Proof.
  rewrite <-not_true_iff_false, py_eq_zero_true. tauto.
Qed.

(** C3: the quiz handler selects the questions whose id is not among the
    previous ones: of every category when the category id [C] is 0 (the
    integer 0 or, equal to it for Python, [False]), and of the category
    [C] only for every other [C], a number or a text.  When some are left
    it answers with success and the one among them at the position the
    random generator draws below their number: its id is not a previous
    one, its category matches [C] when [C] is not 0, every candidate is
    returned for some draw and, the rows of the store being distinct, for
    exactly one, so a uniform draw makes a uniform choice.  When none is
    left it answers with success and no [question] field. *)
Theorem play_quizzes_game_choice (st : store) (cat : gmap string value)
    (C : value) (PQ : list Z) (draw : nat) :
  let body := Some (QuizRequest (Some (<["id" := C]> cat)) PQ) in
  let candidates := quiz_candidates st C PQ in
  (C = VInt 0 ∨ C = VBool false →
     candidates = filter (λ q, Question.id q ∉ PQ) (questions st))
  ∧ (C ≠ VInt 0 → C ≠ VBool false →
     candidates =
       filter (λ q, (Question.id q ∉ PQ)
                    ∧ category_eq (Question.category q) C = true)
              (questions st))
  ∧ (∀ q, q ∈ candidates ↔
        q ∈ questions st ∧ (Question.id q ∉ PQ)
        ∧ (C ≠ VInt 0 → C ≠ VBool false →
           category_eq (Question.category q) C = true))
  ∧ (candidates ≠ [] → (draw < length candidates)%nat →
     ∃ q, candidates !! draw = Some q
          ∧ play_quizzes_game st body draw =
              Return 200 [("success", FBool true);
                          ("question", FQuestion (format q))]
          ∧ q ∈ questions st
          ∧ (Question.id q ∉ PQ)
          ∧ (C ≠ VInt 0 → C ≠ VBool false →
             category_eq (Question.category q) C = true))
  ∧ (∀ q, q ∈ candidates →
     ∃ d, (d < length candidates)%nat
          ∧ play_quizzes_game st body d =
              Return 200 [("success", FBool true);
                          ("question", FQuestion (format q))])
  ∧ (NoDup (questions st) →
     ∀ d1 d2 q, candidates !! d1 = Some q → candidates !! d2 = Some q →
                d1 = d2)
  ∧ (candidates = [] →
     play_quizzes_game st body draw = Return 200 [("success", FBool true)]
     ∧ get_field "question" [("success", FBool true)] = None).
Proof.
  intros body candidates. unfold body.
  assert (∀ q, q ∈ candidates ↔
            q ∈ questions st ∧ (Question.id q ∉ PQ)
            ∧ (C ≠ VInt 0 → C ≠ VBool false →
               category_eq (Question.category q) C = true)) as Hin.
  { intros q. unfold candidates. rewrite quiz_candidates_elem_of.
    rewrite py_eq_zero_false. tauto. }
  split; [|split; [|split; [done|split; [|split; [|split]]]]].
  - intros HC. apply py_eq_zero_true in HC.
    unfold candidates, quiz_candidates. by rewrite HC.
  - intros H0 Hfalse.
    assert (py_eq_zero C = false) as HC by by apply py_eq_zero_false.
    unfold candidates, quiz_candidates. by rewrite HC.
  - intros Hne Hdraw.
    destruct (lookup_lt_is_Some_2 candidates draw Hdraw) as [q Hq].
    exists q. split; [done|]. rewrite play_quizzes_game_unfold.
    fold candidates. rewrite Hq.
    split; [by destruct candidates|].
    by apply Hin, list_elem_of_lookup_2 with draw.
  - intros q [d Hd]%list_elem_of_lookup_1. exists d.
    split; [by eapply lookup_lt_Some|].
    rewrite play_quizzes_game_unfold. fold candidates. rewrite Hd.
    destruct candidates; [by rewrite lookup_nil in Hd|done].
  - intros Hnd d1 d2 q. apply NoDup_lookup.
    unfold candidates, quiz_candidates.
    destruct (py_eq_zero C); by apply NoDup_filter.
  - intros Hnil. rewrite play_quizzes_game_unfold. fold candidates.
    by rewrite Hnil.
Qed.

(** ** Error handlers *)

(** X2: every error handler answers with the status it is registered
    for and with the envelope of that status: no success, the status as
    error, a message.  An abort with a registered code therefore reaches
    the client with that code and the body of its handler. *)
Theorem error_handlers_envelope (code : Z) (handler : payload * Z) :
  (code, handler) ∈ error_handlers →
  handler.2 = code
  ∧ (∃ message,
       handler.1 = [("success", FBool false); ("error", FInt code);
                    ("message", FStr message)])
  ∧ respond (Abort code) = (code, Some handler.1).
Proof.
  intros Hc. unfold error_handlers in Hc.
  repeat (apply elem_of_cons in Hc as [[= -> ->]|Hc]);
    [..|by apply elem_of_nil in Hc];
    (split; [done|split; [by eexists|done]]).
Qed.

(** ** The quiz runs out of questions *)

(** X3: answering a quiz question and adding its id to the previous ones
    leaves fewer candidates for the next call. *)
Theorem quiz_candidates_decrease (st : store) (C : value) (PQ : list Z)
    (q : Question.t) :
  q ∈ quiz_candidates st C PQ →
  (length (quiz_candidates st C (Question.id q :: PQ))
     < length (quiz_candidates st C PQ))%nat.
Proof.
  intros Hq.
  assert (quiz_candidates st C (Question.id q :: PQ) =
          filter (λ r, Question.id r ≠ Question.id q)
                 (quiz_candidates st C PQ)) as ->.
  { unfold quiz_candidates. destruct (py_eq_zero C);
      rewrite list_filter_filter; apply list_filter_iff; intros r;
      rewrite not_elem_of_cons; tauto. }
  apply length_filter_lt with q; [done|]. by intros [].
Qed.

(** X4: once every question of the store has been shown the quiz answers
    with success and no question. *)
Theorem play_quizzes_game_exhausted (st : store) (cat : gmap string value)
    (C : value) (PQ : list Z) (draw : nat) :
  (∀ q, q ∈ questions st → Question.id q ∈ PQ) →
  play_quizzes_game st (Some (QuizRequest (Some (<["id" := C]> cat)) PQ)) draw
    = Return 200 [("success", FBool true)].
Proof.
  intros Hall. rewrite play_quizzes_game_unfold.
  destruct (quiz_candidates st C PQ) as [|q l] eqn:E; [done|].
  assert (q ∈ quiz_candidates st C PQ) as Hq by (rewrite E; left).
  apply quiz_candidates_elem_of in Hq as (Hin & Hnot & _).
  exfalso. by apply Hnot, Hall.
Qed.

End Properties.

(** * Further properties of the application *)

Lemma py_slice_length_eq {A} (l : list A) (a b : Z) :
  length (py_slice l a b) =
    Z.to_nat (slice_bound (Z.of_nat (length l)) b
              - slice_bound (Z.of_nat (length l)) a).
Proof.
  unfold py_slice. rewrite length_take, length_drop.
  pose proof (slice_bound_range (Z.of_nat (length l)) a).
  pose proof (slice_bound_range (Z.of_nat (length l)) b). lia.
Qed.

Lemma categories_dict_order_by (cats : list Category.t) :
  NoDup (Category.id <$> cats) →
  categories_dict (order_by Category.id cats) = categories_dict cats.
Proof.
  intros Hnd. apply map_eq. intros k. apply option_eq. intros v.
  rewrite !categories_dict_lookup; [apply order_by_elem_of|done|].
  by rewrite order_by_perm.
Qed.

Section MoreProperties.
Context `{Env}.

Lemma paginate_questions_length_eq (req : request) (L : list Question.t) :
  length (paginate_questions req L) =
    Z.to_nat (slice_bound (Z.of_nat (length L))
                          (default 1 (page_arg req) * 10)
              - slice_bound (Z.of_nat (length L))
                            ((default 1 (page_arg req) - 1) * 10)).
Proof.
  by rewrite paginate_questions_py_slice, py_slice_length_eq, length_fmap.
Qed.

Lemma get_questions_ok_iff (st : store) (req : request) :
  status (get_questions st req) = 200 ↔
    paginate_questions req (order_by Question.id (questions st)) ≠ [].
Proof.
  unfold status, get_questions. case_bool_decide as E; simpl.
  - split; [done|]. by intros [].
  - done.
Qed.

Lemma get_questions_404_iff (st : store) (req : request) :
  get_questions st req = Abort 404 ↔
    paginate_questions req (order_by Question.id (questions st)) = [].
Proof. unfold get_questions. by case_bool_decide. Qed.

(** ** Which pages exist *)

(** X6: from page 1 on, page [P] of the listing holds the questions left
    after the first [(P-1)*10], ten at most; the listing answers 404
    exactly when the store holds no more than [(P-1)*10] questions, and 200
    otherwise. *)
Theorem get_questions_page_exists (st : store) (req : request) :
  1 ≤ default 1 (page_arg req) →
  length (paginate_questions req (order_by Question.id (questions st))) =
    Z.to_nat (Z.min 10 (Z.of_nat (length (questions st))
                        - (default 1 (page_arg req) - 1) * 10))
  ∧ (get_questions st req = Abort 404 ↔
     Z.of_nat (length (questions st)) ≤ (default 1 (page_arg req) - 1) * 10)
  ∧ (status (get_questions st req) = 200 ↔
     (default 1 (page_arg req) - 1) * 10 < Z.of_nat (length (questions st))).
Proof.
  intros HP.
  assert (length (paginate_questions req
                    (order_by Question.id (questions st))) =
          Z.to_nat (Z.min 10 (Z.of_nat (length (questions st))
                              - (default 1 (page_arg req) - 1) * 10)))
    as Hlen.
  { rewrite paginate_questions_length_eq, order_by_length.
    unfold slice_bound.
    assert ((default 1 (page_arg req) * 10 <? 0) = false) as -> by lia.
    assert (((default 1 (page_arg req) - 1) * 10 <? 0) = false) as -> by lia.
    lia. }
  split; [done|]. rewrite get_questions_404_iff, get_questions_ok_iff.
  rewrite <-!length_zero_iff_nil, Hlen. lia.
Qed.

(** X7: below page 1 no page is refused as such.  Page 0 aside, page
    [P < 0] of the listing is the slice that runs from [(1-P)*10] before
    the end of the list to [-P*10] before its end: it holds
    [min 10 (n + P*10)] questions of the [n] in the store, so the listing
    answers 200 as soon as the store holds more than [-P*10] questions and
    404 otherwise. *)
Theorem get_questions_negative_page (st : store) (req : request) :
  default 1 (page_arg req) < 0 →
  length (paginate_questions req (order_by Question.id (questions st))) =
    Z.to_nat (Z.min 10 (Z.of_nat (length (questions st))
                        + default 1 (page_arg req) * 10))
  ∧ (status (get_questions st req) = 200 ↔
     - default 1 (page_arg req) * 10 < Z.of_nat (length (questions st)))
  ∧ (get_questions st req = Abort 404 ↔
     Z.of_nat (length (questions st)) ≤ - default 1 (page_arg req) * 10).
Proof.
  intros HP.
  assert (length (paginate_questions req
                    (order_by Question.id (questions st))) =
          Z.to_nat (Z.min 10 (Z.of_nat (length (questions st))
                              + default 1 (page_arg req) * 10)))
    as Hlen.
  { rewrite paginate_questions_length_eq, order_by_length.
    unfold slice_bound.
    assert ((default 1 (page_arg req) * 10 <? 0) = true) as -> by lia.
    assert (((default 1 (page_arg req) - 1) * 10 <? 0) = true) as -> by lia.
    lia. }
  split; [done|]. rewrite get_questions_404_iff, get_questions_ok_iff.
  rewrite <-!length_zero_iff_nil, Hlen. lia.
Qed.

(** X8: the pages 1 to [k] of a selection, one after the other, are its
    first [10*k] formatted rows: pages neither overlap nor skip a row, and
    together they are the whole selection once [10*k] reaches its
    length. *)
Theorem paginate_questions_pages (body : option (gmap string value))
    (L : list Question.t) (k : nat) :
  mjoin ((λ i : nat, paginate_questions
                       (Request (Some (Z.of_nat i + 1)) body) L)
         <$> seq 0 k)
    = take (10 * k) (format <$> L)
  ∧ ((length L ≤ 10 * k)%nat →
     mjoin ((λ i : nat, paginate_questions
                          (Request (Some (Z.of_nat i + 1)) body) L)
            <$> seq 0 k)
       = format <$> L).
Proof.
  assert (mjoin ((λ i : nat, paginate_questions
                               (Request (Some (Z.of_nat i + 1)) body) L)
                 <$> seq 0 k)
          = take (10 * k) (format <$> L)) as E.
  { induction k as [|k IH]; [done|].
    rewrite seq_S, fmap_app, join_app, IH. simpl.
    rewrite app_nil_r, paginate_questions_py_slice. simpl.
    rewrite py_slice_nonneg by lia.
    replace (Z.to_nat ((Z.of_nat k + 1) * 10 - (Z.of_nat k + 1 - 1) * 10))
      with 10%nat by lia.
    replace (Z.to_nat ((Z.of_nat k + 1 - 1) * 10)) with (10 * k)%nat by lia.
    rewrite take_take_drop. f_equal. lia. }
  split; [done|]. intros Hk. rewrite E.
  apply take_ge. by rewrite length_fmap.
Qed.

(** ** The two category mappings *)

(** X9: the listing of questions reads the categories in no particular
    order and the listing of categories reads them by id; with unique
    category ids both answer with the same mapping. *)
Theorem categories_field_agrees (st : store) (req : request)
    (code1 code2 : Z) (body1 body2 : payload) :
  NoDup (Category.id <$> categories st) →
  get_questions st req = Return code1 body1 →
  get_categories st = Return code2 body2 →
  get_field "categories" body1 = get_field "categories" body2
  ∧ get_field "categories" body2
      = Some (FCategories (categories_dict (categories st))).
Proof.
  intros Hnd. unfold get_questions, get_categories.
  repeat case_bool_decide; try done.
  intros [= <- <-] [= <- <-].
  rewrite categories_dict_order_by by done. done.
Qed.

End MoreProperties.
(** ** More on patterns *)

Lemma like_tokens_tok_of c p :
  c ≠ "\"%char → like_tokens (String c p) = tok_of c :: like_tokens p.
Proof.
  intros Hc. destruct c as [[] [] [] [] [] [] [] []]; try done;
    by destruct p.
Qed.

Lemma like_tokens_no_escape t rest :
  no_escape t = true → like_tokens (t +:+ rest) = toks t ++ like_tokens rest.
Proof.
  induction t as [|c t IH]; [done|].
  intros [Hc Ht]%andb_prop.
  apply negb_true_iff, bool_decide_eq_false in Hc.
  change (String c t +:+ rest) with (String c (t +:+ rest)).
  rewrite like_tokens_tok_of by done. simpl. by rewrite IH.
Qed.

Lemma like_match_any_skip p s :
  like_match p s = true → like_match (Any :: p) s = true.
Proof. intros Hp. by rewrite like_match_any, Hp. Qed.

Lemma like_match_any_cons p a s :
  like_match (Any :: p) s = true → like_match (Any :: p) (String a s) = true.
Proof. intros Hp. rewrite like_match_any, Hp. apply orb_true_r. Qed.

Lemma like_match_toks t s :
  prefix_ci t s = true → like_match (toks t ++ [Any]) s = true.
Proof.
  revert s. induction t as [|c t IH]; intros s.
  - intros _. apply like_match_any_end.
  - destruct s as [|b s]; [done|]. simpl.
    intros [Hc Ht]%andb_prop. apply IH in Ht.
    unfold tok_of. repeat case_bool_decide.
    + by apply like_match_any_cons, like_match_any_skip.
    + done.
    + simpl. by rewrite Hc, Ht.
Qed.

Lemma like_match_toks_contains t s :
  substring_ci t s = true → like_match (Any :: toks t ++ [Any]) s = true.
Proof.
  induction s as [|b s IH]; intros Hsub; simpl in Hsub;
    apply orb_prop in Hsub as [Hp|Hs]; try done.
  - by apply like_match_any_skip, like_match_toks.
  - by apply like_match_any_skip, like_match_toks.
  - by apply like_match_any_cons, IH.
Qed.

Lemma like_match_any_any s : like_match [Any; Any] s = true.
Proof. apply like_match_any_skip, like_match_any_end. Qed.

Lemma like_match_any_one_any s :
  like_match [Any; One; Any] s = true ↔ s ≠ "".
Proof.
  split.
  - by intros Hs ->.
  - intros Hs. destruct s as [|a s]; [done|].
    apply like_match_any_skip. simpl. apply like_match_any_end.
Qed.

Section SearchProperties.
Context `{Env}.

Lemma ilike_contains (column : value) (t : string) :
  plain_term t = true →
  ilike column ("%" +:+ t +:+ "%") =
    match text_of column with
    | Some s => substring_ci t s
    | None => false
    end.
Proof.
  intros Ht. unfold ilike.
  change ("%" +:+ t +:+ "%") with (String "%"%char (t +:+ "%")).
  change (like_tokens (String "%" (t +:+ "%")))
    with (Any :: like_tokens (t +:+ "%")).
  rewrite like_tokens_plain by done.
  destruct (text_of column); [apply like_match_contains|done].
Qed.

(** ** Search terms with and without wildcards *)

(** X10: for a term without backslash, every question whose text
    contains the term, letter case aside, is selected by the search: the
    wildcards [%] and [_] of a term can add questions to the result, they
    remove none. *)
Theorem search_matches_complete (st : store) (term s : string)
    (q : Question.t) :
  no_escape term = true →
  q ∈ questions st →
  text_of (Question.question q) = Some s →
  substring_ci term s = true →
  q ∈ search_matches st (VStr term).
Proof.
  intros Hterm Hq Hs Hsub. unfold search_matches.
  apply list_elem_of_filter. split; [|done].
  unfold ilike. rewrite Hs. simpl py_str.
  change ("%" +:+ term +:+ "%") with (String "%"%char (term +:+ "%")).
  change (like_tokens (String "%" (term +:+ "%")))
    with (Any :: like_tokens (term +:+ "%")).
  rewrite like_tokens_no_escape by done.
  apply Is_true_true. by apply (like_match_toks_contains term s).
Qed.

(** X11: a search body without [searchTerm], or with a null one, is
    answered like a search for the text [None]: the handler formats the
    missing term into the pattern, so the questions selected are those
    whose text contains [none], letter case aside. *)
Theorem search_questions_missing_term (st : store) (page : option Z)
    (body : gmap string value) :
  dict_get body "searchTerm" = VNone →
  search_questions st (Request page (Some body)) =
    search_questions st
      (Request page (Some (<["searchTerm" := VStr "None"]> body)))
  ∧ ∀ q, q ∈ search_matches st (dict_get body "searchTerm") ↔
         q ∈ questions st
         ∧ ∃ s, text_of (Question.question q) = Some s
                ∧ substring_ci "None" s = true.
Proof.
  intros Hterm. split.
  - assert (dict_get (<["searchTerm" := VStr "None"]> body) "searchTerm"
            = VStr "None") as Hnone.
    { unfold dict_get. by rewrite lookup_insert_eq. }
    rewrite !search_questions_unfold. cbv zeta. by rewrite Hterm, Hnone.
  - intros q. rewrite Hterm. unfold search_matches.
    rewrite list_elem_of_filter. simpl py_str.
    rewrite (ilike_contains _ "None") by done.
    destruct (text_of (Question.question q)) as [s|].
    + split.
      * intros [Hs Hq]. split; [done|]. exists s.
        split; [done|]. by apply Is_true_true.
      * intros [Hq (s' & [= <-] & Hs)]. split; [|done].
        by apply Is_true_true.
    + split; [by intros [[] _]|]. by intros [_ (s & ? & _)].
Qed.

(** X12: the empty term and the term [%] select every question that has
    a text, and the term [_] every question whose text is not empty. *)
Theorem search_matches_wildcard_terms (st : store) (q : Question.t) :
  (q ∈ search_matches st (VStr "") ↔
     q ∈ questions st ∧ is_Some (text_of (Question.question q)))
  ∧ (q ∈ search_matches st (VStr "%") ↔
     q ∈ questions st ∧ is_Some (text_of (Question.question q)))
  ∧ (q ∈ search_matches st (VStr "_") ↔
     q ∈ questions st
     ∧ ∃ s, text_of (Question.question q) = Some s ∧ s ≠ "").
Proof.
  unfold search_matches. rewrite !list_elem_of_filter. unfold ilike.
  simpl py_str.
  change (like_tokens ("%" +:+ "" +:+ "%")) with [Any; Any].
  change (like_tokens ("%" +:+ "%" +:+ "%")) with [Any; Any; Any].
  change (like_tokens ("%" +:+ "_" +:+ "%")) with [Any; One; Any].
  destruct (text_of (Question.question q)) as [s|].
  - rewrite like_match_any_any, (like_match_any_skip _ _ (like_match_any_any s)).
    split; [|split].
    + split; intros [? ?]; by split.
    + split; intros [? ?]; by split.
    + split.
      * intros [Hs Hq]. split; [done|]. exists s. split; [done|].
        by apply like_match_any_one_any, Is_true_true.
      * intros [Hq (s' & [= <-] & Hs)]. split; [|done].
        by apply Is_true_true, like_match_any_one_any.
  - split; [|split].
    + split; [by intros [[] _]|]. by intros [_ [? ?]].
    + split; [by intros [[] _]|]. by intros [_ [? ?]].
    + split; [by intros [[] _]|]. by intros [_ (? & ? & _)].
Qed.

(** ** The quiz handler's answers *)

(** X13: [get_json()] aborts the quiz handler with 400 or 415, and
    these are the only aborts: once [get_json()] has returned, the handler
    answers 200 or lets an exception escape (500).  So the route answers
    200, 500, 400 or 415, and neither 422 nor 404.  A body that is not a
    JSON object, has no [quiz_category] object, or whose [quiz_category]
    has no [id], makes an exception escape. *)
Theorem play_quizzes_game_status (st : store)
    (got : json_failure + option quiz_request) (draw : nat) :
  (status (post_quizzes st got draw) = 200
   ∨ status (post_quizzes st got draw) = 500
   ∨ status (post_quizzes st got draw) = 400
   ∨ status (post_quizzes st got draw) = 415)
  ∧ (∀ code, post_quizzes st got draw = Abort code ↔
       ∃ f, got = inl f ∧ code = failure_code f)
  ∧ (∀ body, got = inr body →
       status (post_quizzes st got draw) = 200
       ∨ status (post_quizzes st got draw) = 500)
  ∧ status (post_quizzes st got draw) ≠ 422
  ∧ status (post_quizzes st got draw) ≠ 404
  ∧ (got = inr None →
     post_quizzes st got draw = Raise AttributeError)
  ∧ (∀ PQ, got = inr (Some (QuizRequest None PQ)) →
     post_quizzes st got draw = Raise TypeError)
  ∧ (∀ c PQ, got = inr (Some (QuizRequest (Some c) PQ)) → c !! "id" = None →
     post_quizzes st got draw = Raise KeyError).
Proof.
  assert (∀ body, status (play_quizzes_game st body draw) = 200
                  ∨ status (play_quizzes_game st body draw) = 500) as Hst.
  { intros body. unfold status, play_quizzes_game.
    destruct body as [[[c|] PQ]|]; simpl; auto.
    destruct (c !! "id"); simpl; auto.
    case_bool_decide; simpl; auto.
    destruct (random_choice _ _); simpl; auto. }
  assert (∀ body code, play_quizzes_game st body draw ≠ Abort code) as Hab.
  { intros body code. unfold play_quizzes_game.
    destruct body as [[[c|] PQ]|]; simpl; try done.
    destruct (c !! "id"); simpl; try done.
    case_bool_decide; simpl; try done.
    by destruct (random_choice _ _). }
  split; [|split; [|split; [|split; [|split; [|split; [|split]]]]]].
  - destruct got as [[]|body]; simpl; [by auto..|].
    destruct (Hst body) as [-> | ->]; auto.
  - intros code. destruct got as [f|body]; simpl.
    + split; [intros [= <-]; by exists f|]. by intros (f' & [= <-] & ->).
    + split; [by intros E%Hab|]. by intros (f & ? & _).
  - intros body ->. apply Hst.
  - destruct got as [[]|body]; simpl; [done..|].
    by destruct (Hst body) as [-> | ->].
  - destruct got as [[]|body]; simpl; [done..|].
    by destruct (Hst body) as [-> | ->].
  - by intros ->.
  - by intros PQ ->.
  - intros c PQ -> Hid. unfold post_quizzes, play_quizzes_game. simpl.
    by rewrite Hid.
Qed.

End SearchProperties.
(** ** Routing *)

Lemma dispatch_inr_rule m path e args :
  dispatch m path = inr (e, args) →
  ∃ r, r ∈ url_map ∧ rule_endpoint r = e ∧ m ∈ rule_methods r
       ∧ match_path (rule_path r) path = Some args.
Proof.
  unfold dispatch.
  destruct (list_find _ url_map) as [[i r]|] eqn:E.
  - apply list_find_Some in E as (Hi & [[a Ha] Hm] & _).
    intros [= <- <-]. exists r. rewrite Ha.
    eauto using list_elem_of_lookup_2.
  - by case_bool_decide.
Qed.



Lemma match_path_static_1 s path args :
  match_path [Static s] path = Some args → path = [s] ∧ args = [].
Proof.
  destruct path as [|x [|y path]]; simpl; try done;
    case_decide; try done. by intros [= <-]; subst.
Qed.

Lemma match_path_static_int s path args :
  match_path [Static s; IntArg] path = Some args →
  ∃ x i, path = [s; x] ∧ int_converter x = Some i ∧ args = [i].
Proof.
  destruct path as [|x [|y [|z path]]]; simpl; try done;
    case_decide; try done; destruct (int_converter y) as [i|] eqn:E;
    try done. intros [= <-]; subst. eauto.
Qed.

Lemma match_path_static_int_static s t path args :
  match_path [Static s; IntArg; Static t] path = Some args →
  ∃ x i, path = [s; x; t] ∧ int_converter x = Some i ∧ args = [i].
Proof.
  destruct path as [|x [|y [|z [|w path]]]]; simpl; try done;
    case_decide; try done; destruct (int_converter y) as [i|] eqn:E;
    try done; case_decide; try done.
  intros [= <-]; subst. eauto.
Qed.

Lemma match_path_static_2 s t path args :
  match_path [Static s; Static t] path = Some args →
  path = [s; t] ∧ args = [].
Proof.
  destruct path as [|x [|y [|z path]]]; simpl; try done;
    repeat (case_decide; try done). by intros [= <-]; subst.
Qed.

Section AppProperties.
Context `{Env}.

Lemma serve_dispatch_inl st r draw code :
  dispatch (http_method r) (http_path r) = inl code →
  serve st r draw = (after_request (make_response (respond (Abort code))), st).
Proof. intros E. unfold serve. by rewrite E. Qed.

Lemma serve_dispatch_inr st r draw e args :
  dispatch (http_method r) (http_path r) = inr (e, args) →
  serve st r draw =
    (after_request (make_response (respond (call_view e args st r draw).1)),
     (call_view e args st r draw).2).
Proof.
  intros E. unfold serve. rewrite E. by destruct (call_view _ _ _ _ _).
Qed.

Lemma delete_question_store st id :
  (delete_question st id).2 = st
  ∨ ∃ q, q ∈ questions st ∧ Question.id q = id
         ∧ (delete_question st id).2 = question_delete q st.
Proof.
  unfold delete_question.
  destruct (filter _ (questions st)) as [|q [|q' l]] eqn:E; simpl; auto.
  assert (q ∈ filter (λ q, Question.id q = id) (questions st)) as Hq
    by (rewrite E; left).
  apply list_elem_of_filter in Hq as [Hid Hq]. right. by exists q.
Qed.

(** ** Requests no view answers *)


(** X16: among the requests whose path is ASCII text, only two kinds
    change the store: a [POST] to [/questions] and a [DELETE] of
    [/questions/<id>] for an id the store holds.  Every other such
    request, and every [GET] in particular, leaves the store as it found
    it. *)
Theorem serve_store_changes (st : store) (r : http_request) (draw : nat) :
  Forall (λ x, ascii_only x = true) (http_path r) →
  ((serve st r draw).2 ≠ st →
     (http_method r = POST ∧ http_path r = ["questions"])
     ∨ (http_method r = DELETE
        ∧ ∃ x id, http_path r = ["questions"; x]
                  ∧ int_converter x = Some id
                  ∧ id ∈ Question.id <$> questions st))
  ∧ (http_method r = GET → (serve st r draw).2 = st).
Proof.
  intros _.
  assert ((serve st r draw).2 = st
     ∨ (http_method r = POST ∧ http_path r = ["questions"])
     ∨ (http_method r = DELETE
        ∧ ∃ x id, http_path r = ["questions"; x]
                  ∧ int_converter x = Some id
                  ∧ id ∈ Question.id <$> questions st)) as Hw.
  { destruct (dispatch (http_method r) (http_path r)) as [code|[e args]] eqn:E.
    { left. by rewrite (serve_dispatch_inl st r draw code E). }
    rewrite (serve_dispatch_inr st r draw e args E). simpl.
    apply dispatch_inr_rule in E as (rl & Hrl & <- & Hm & Hp).
    repeat (apply elem_of_cons in Hrl as [->|Hrl]);
      [..|by apply elem_of_nil in Hrl]; simpl in *;
      apply list_elem_of_singleton in Hm.
    - left. by apply match_path_static_1 in Hp as [_ ->].
    - left. by apply match_path_static_1 in Hp as [_ ->].
    - apply match_path_static_int in Hp as (x & i & Hpath & Hx & ->).
      destruct (delete_question_store st i) as [?|(q & Hq & <- & _)];
        [by left|]. right. right. split; [done|]. exists x, (Question.id q).
        split; [done|]. split; [done|]. by apply list_elem_of_fmap_2.
    - apply match_path_static_1 in Hp as [Hpath ->]. auto.
    - left. by apply match_path_static_2 in Hp as [_ ->].
    - left.
      by apply match_path_static_int_static in Hp as (x & i & _ & _ & ->).
    - left. by apply match_path_static_1 in Hp as [_ ->]. }
  split.
  - intros Hne. by destruct Hw as [?|?].
  - intros Hget. destruct Hw as [?|[[? _]|[? _]]]; [done|congruence..].
Qed.

End AppProperties.
(** ** The store's invariant *)

Lemma filter_all {A} (P : A → Prop) `{!∀ x, Decision (P x)} (l : list A) :
  (∀ x, x ∈ l → P x) → filter P l = l.
Proof.
  induction l as [|x l IH]; intros Hl; [done|].
  rewrite filter_cons, decide_True by (apply Hl; left).
  f_equal. apply IH. intros y Hy. apply Hl. by right.
Qed.

Lemma key_unique {A} (key : A → Z) (rows : list A) (x y : A) :
  NoDup (key <$> rows) → x ∈ rows → y ∈ rows → key x = key y → x = y.
Proof.
  intros Hnd Hx Hy Hk.
  assert (x ∈ filter (λ r, key r = key y) rows) as Hin
    by by apply list_elem_of_filter.
  rewrite (filter_key_unique key) in Hin by done.
  by apply list_elem_of_singleton in Hin.
Qed.

Lemma wf_store_fresh (st : store) :
  wf_store st → next_id st ∉ Question.id <$> questions st.
Proof.
  intros [_ Hlt] (q & Hid & Hq)%list_elem_of_fmap.
  rewrite Forall_forall in Hlt. specialize (Hlt q Hq). lia.
Qed.

Lemma question_delete_wf (q : Question.t) (st : store) :
  wf_store st → wf_store (question_delete q st).
Proof.
  intros [Hnd Hlt]. split; simpl.
  - eapply sublist_NoDup; [exact Hnd|].
    apply fmap_sublist, sublist_filter.
  - apply Forall_forall. intros r [_ Hr]%list_elem_of_filter.
    rewrite Forall_forall in Hlt. by apply Hlt.
Qed.

Lemma insert_wf (st : store) (q a c d : value) :
  wf_store st → wf_store (question_insert q a c d st).2.
Proof.
  intros Hwf. pose proof (wf_store_fresh st Hwf) as Hfresh.
  destruct Hwf as [Hnd Hlt]. split; simpl.
  - rewrite fmap_app. apply NoDup_app. split; [done|]. split.
    + intros x Hx. simpl. rewrite list_elem_of_singleton. by intros ->.
    + apply NoDup_singleton.
  - apply Forall_app. split.
    + eapply Forall_impl; [exact Hlt|]. simpl. intros; lia.
    + apply Forall_singleton. simpl. lia.
Qed.

(** The listing after an insertion: the new question comes last. *)
Lemma order_by_snoc_fresh (st : store) (new : Question.t) :
  wf_store st → Question.id new = next_id st →
  order_by Question.id (questions st ++ [new])
    = order_by Question.id (questions st) ++ [new].
Proof.
  intros Hwf Hid. pose proof (wf_store_fresh st Hwf) as Hfresh.
  destruct Hwf as [Hnd Hlt].
  assert (NoDup (Question.id <$> questions st ++ [new])) as Hnd'.
  { rewrite fmap_app. apply NoDup_app. split; [done|]. split.
    - intros x Hx. simpl. rewrite list_elem_of_singleton, Hid.
      by intros ->.
    - apply NoDup_singleton. }
  apply (StronglySorted_unique_strong (key_le Question.id)).
  - intros x1 x2 Hx1 Hx2 H12 H21.
    apply (key_unique Question.id (questions st ++ [new])); [done|..].
    + by apply (order_by_elem_of Question.id).
    + apply elem_of_app in Hx2 as [Hx2|Hx2]; apply elem_of_app; [left|by right].
      by apply (order_by_elem_of Question.id).
    + unfold key_le in *. lia.
  - apply order_by_sorted.
  - apply StronglySorted_app_2.
    + intros x1 x2 Hx1 ->%list_elem_of_singleton.
      apply (proj1 (order_by_elem_of Question.id _ _)) in Hx1.
      rewrite Forall_forall in Hlt. specialize (Hlt x1 Hx1).
      unfold key_le. lia.
    + apply order_by_sorted.
    + repeat constructor.
  - rewrite !order_by_perm. done.
Qed.

Section StoreProperties.
Context `{Env}.

(** X17: the application keeps the ids of the questions unique and below
    the next id to assign: whatever the request, the store it leaves
    satisfies this when the store it found does.  (The insertion and the
    deletion of a row are those of the store model: the new row takes the
    next id, the deleted id leaves the table.) *)
Theorem serve_wf_store (st : store) (r : http_request) (draw : nat) :
  wf_store st → wf_store (serve st r draw).2.
Proof.
  intros Hwf.
  destruct (dispatch (http_method r) (http_path r)) as [code|[e args]] eqn:E.
  { by rewrite (serve_dispatch_inl st r draw code E). }
  rewrite (serve_dispatch_inr st r draw e args E). simpl.
  destruct e, args as [|i [|j args]]; simpl; try done.
  - destruct (delete_question_store st i) as [->|(q & _ & _ & ->)];
      [done|]. by apply question_delete_wf.
  - destruct r as [m path [page [input|]] quiz]; cbn [http_args]; [|done].
    rewrite create_new_question_unfold. cbn [snd].
    by apply (insert_wf st).
Qed.

(** X18: creating a question and then deleting the id the creation
    answered with leaves the questions of the store as they were before:
    the deletion answers 200 with that id and the former total.  The id is
    used up all the same: the next creation gets a new one. *)
Theorem create_then_delete (st : store) (page : option Z)
    (input : gmap string value) :
  wf_store st →
  (create_new_question st (Request page (Some input))).1
    = Return 201
        [("success", FBool true);
         ("created", FInt (next_id st));
         ("questions",
          FQuestions
            (paginate_questions (Request page (Some input))
               (order_by Question.id
                  (questions
                     (create_new_question st
                        (Request page (Some input))).2))));
         ("total_questions",
          FInt (Z.of_nat (S (length (questions st)))))]
  ∧ delete_question
      (create_new_question st (Request page (Some input))).2 (next_id st)
    = (Return 200 [("success", FBool true);
                   ("deleted", FInt (next_id st));
                   ("total_questions",
                    FInt (Z.of_nat (length (questions st))))],
       Store (questions st) (categories st) (next_id st + 1)).
Proof.
  intros Hwf. pose proof (wf_store_fresh st Hwf) as Hfresh.
  rewrite create_new_question_unfold. simpl. split.
  { rewrite length_app. simpl. do 7 f_equal. lia. }
  unfold delete_question. simpl.
  rewrite filter_app, (filter_key_absent Question.id) by done. simpl.
  rewrite filter_cons, decide_True by done. simpl.
  unfold question_delete, FLen. simpl.
  rewrite filter_app, filter_all; simpl.
  - rewrite filter_cons, decide_False by (by intros []).
    by rewrite app_nil_r.
  - intros q Hq Hid. apply Hfresh. rewrite <-Hid.
    by apply list_elem_of_fmap_2.
Qed.

(** X19: a created question is the last of the listing by id.  Its
    creation answers with page 1 when the request names no page: the new
    question closes that page when the store held fewer than ten
    questions, and is not on it when the store held ten or more, the page
    then being the first page as it was before the creation. *)
Theorem create_new_question_listing (st : store)
    (input : gmap string value) :
  wf_store st →
  let new := Question.mk (next_id st)
               (dict_get input "question") (dict_get input "answer")
               (dict_get input "category") (dict_get input "difficulty") in
  let st' := (create_new_question st (Request None (Some input))).2 in
  let first_page :=
    paginate_questions (Request None (Some input))
                       (order_by Question.id (questions st')) in
  order_by Question.id (questions st')
    = order_by Question.id (questions st) ++ [new]
  ∧ ((length (questions st) < 10)%nat →
     first_page = (format <$> order_by Question.id (questions st))
                  ++ [format new])
  ∧ ((10 ≤ length (questions st))%nat →
     first_page = paginate_questions (Request None (Some input))
                    (order_by Question.id (questions st))).
Proof.
  intros Hwf new st' first_page. unfold first_page, st'.
  rewrite create_new_question_unfold. simpl.
  rewrite (order_by_snoc_fresh st) by done.
  split; [done|].
  rewrite !paginate_questions_py_slice. simpl.
  rewrite !py_slice_nonneg by lia. simpl.
  rewrite fmap_app.
  change (Z.to_nat (1 * 10 - (1 - 1) * 10)) with 10%nat.
  change (Z.to_nat ((1 - 1) * 10)) with 0%nat. rewrite !drop_0. split.
  - intros Hlt. rewrite take_ge; [done|].
    rewrite length_app, length_fmap, order_by_length. simpl. lia.
  - intros Hge. rewrite take_app_le; [done|].
    rewrite length_fmap, order_by_length. lia.
Qed.

End StoreProperties.
(** ** The test suite against the handlers *)

Lemma categories_dict_non_empty (cats : list Category.t) :
  categories_dict cats ≠ ∅ ↔ cats ≠ [].
Proof.
  split.
  - intros Hm ->. by apply Hm.
  - intros Hne. destruct cats as [|c cats] using rev_ind; [done|].
    rewrite categories_dict_snoc. apply insert_non_empty.
Qed.

Section TestProperties.
Context `{Env}.

Lemma client_status st m path page json e args :
  dispatch m path = inr (e, args) →
  status_code (client st m path page json) =
    status (call_view e args st (Http m path (Request page json) None) 0).1.
Proof.
  intros E. unfold client.
  by rewrite (serve_dispatch_inr st (Http m path (Request page json) None)
                0%nat e args E).
Qed.

Lemma client_data st m path page json e args k :
  dispatch m path = inr (e, args) →
  data_field (client st m path page json) k =
    match (respond (call_view e args st
                      (Http m path (Request page json) None) 0).1).2 with
    | Some body => get_field k body
    | None => None
    end.
Proof.
  intros E. unfold client.
  by rewrite (serve_dispatch_inr st (Http m path (Request page json) None)
                0%nat e args E).
Qed.

Lemma play_quizzes_game_status_cases st body draw :
  status (play_quizzes_game st body draw) = 200
  ∨ status (play_quizzes_game st body draw) = 500.
Proof.
  unfold status, play_quizzes_game.
  destruct body as [[[c|] PQ]|]; simpl; auto.
  destruct (c !! "id"); simpl; auto.
  case_bool_decide; simpl; auto.
  destruct (random_choice _ _); simpl; auto.
Qed.

(** X20: four tests of the suite expect an answer the handlers never
    give, whatever the store: 422 for the deletion of a missing question
    (the handler answers 404, or 200 when the question exists), 200 for a
    creation (the handler answers 201), 404 for the questions of a
    missing category (the handler lets an exception escape, or answers
    200 when the category exists), and 422 for a quiz in an unknown
    category (the handler answers 200 or lets an exception escape). *)
Theorem test_expectations_unmet (st : store) (draw : nat) :
  ¬ test_delete_notexisted_question st
  ∧ ¬ test_create_new_question st
  ∧ ¬ test_questions_in_category_not_found st
  ∧ ¬ test_quiz_not_found_category st draw.
Proof.
  split; [|split; [|split]].
  - intros [Hs _]. revert Hs.
    rewrite (client_status _ _ _ _ _ ep_delete_question [170]) by done.
    unfold status, call_view, delete_question.
    by destruct (filter _ (questions st)) as [|q [|q' l]].
  - intros [Hs _]. revert Hs.
    rewrite (client_status _ _ _ _ _ ep_create_new_question []) by done.
    cbn [call_view http_args]. by rewrite create_new_question_unfold.
  - intros [Hs _]. revert Hs.
    rewrite (client_status _ _ _ _ _ ep_get_questions_by_category [100])
      by done.
    unfold status, call_view, get_questions_by_category.
    by destruct (filter _ (categories st)) as [|c [|c' l]].
  - intros [Hs _]. revert Hs. unfold serve.
    change (dispatch _ _) with
      (inr (ep_play_quizzes_game, []) : Z + endpoint * list Z).
    cbn [call_view http_quiz].
    change (status_code _) with
      (status (play_quizzes_game st
         (Some (QuizRequest
                  (Some {[ "type" := VStr "None"; "id" := VStr "None" ]})
                  [1])) draw)).
    destruct (play_quizzes_game_status_cases st
      (Some (QuizRequest
               (Some {[ "type" := VStr "None"; "id" := VStr "None" ]})
               [1])) draw) as [-> | ->]; done.
Qed.

(** X21: the two tests that send a method their path does not allow
    pass on every store: a [POST] to [/categories] and a [DELETE] of
    [/questions] are answered 405 with the error envelope. *)
Theorem test_method_not_allowed (st : store) :
  test_post_categories_not_allowed st
  ∧ test_create_new_question_not_allow st.
Proof.
  split.
  - unfold test_post_categories_not_allowed, client.
    by rewrite (serve_dispatch_inl _ _ _ 405).
  - unfold test_create_new_question_not_allow, client.
    by rewrite (serve_dispatch_inl _ _ _ 405).
Qed.

(** X22: what the tests of the two listings need of the store:
    [test_get_all_categories] passes exactly when the store holds a
    category, [test_get_questions_pagebypage] exactly when it holds a
    question and a category, and [test_number_of_page_exceed] exactly when
    it holds at most sixty questions. *)
Theorem test_listing_fixture (st : store) :
  (test_get_all_categories st ↔ categories st ≠ [])
  ∧ (test_get_questions_pagebypage st ↔
     questions st ≠ [] ∧ categories st ≠ [])
  ∧ (test_number_of_page_exceed st ↔ (length (questions st) ≤ 60)%nat).
Proof.
  split; [|split].
  - unfold test_get_all_categories. cbv zeta.
    rewrite (client_status _ _ _ _ _ ep_get_categories []) by done.
    rewrite !(client_data _ _ _ _ _ ep_get_categories []) by done.
    unfold status, call_view, get_categories. cbn [fst].
    case_bool_decide as E; simpl.
    + rewrite order_by_length in E. apply length_zero_iff_nil in E.
      split; [by intros [? _]|done].
    + rewrite order_by_length in E. split.
      * intros _ Hnil. apply E. by rewrite Hnil.
      * intros Hne. split; [done|]. split; [done|].
        apply categories_dict_non_empty. by rewrite order_by_nil.
  - unfold test_get_questions_pagebypage. cbv zeta.
    rewrite (client_status _ _ _ _ _ ep_get_questions []) by done.
    rewrite !(client_data _ _ _ _ _ ep_get_questions []) by done.
    unfold status, call_view, get_questions. cbn [fst http_args].
    assert (paginate_questions (Request None None)
              (order_by Question.id (questions st)) = [] ↔ questions st = [])
      as Hpage.
    { rewrite <-!length_zero_iff_nil, paginate_questions_length_eq,
        order_by_length. unfold slice_bound. simpl. lia. }
    case_bool_decide as E; simpl.
    + apply Hpage in E. split; [by intros [? _]|]. by intros [? _].
    + split.
      * intros (_ & _ & _ & _ & m & [= <-] & Hm).
        split; [by rewrite <-Hpage|]. by apply categories_dict_non_empty.
      * intros [Hq Hc]. split; [done|]. split; [done|]. split; [eauto|].
        split.
        -- rewrite order_by_length. unfold FLen. simpl.
           destruct (questions st); [done|]. simpl. lia.
        -- eexists. split; [done|]. by apply categories_dict_non_empty.
  - unfold test_number_of_page_exceed. cbv zeta.
    rewrite (client_status _ _ _ _ _ ep_get_questions []) by done.
    rewrite !(client_data _ _ _ _ _ ep_get_questions []) by done.
    unfold status, call_view, get_questions. cbn [fst http_args].
    assert (paginate_questions (Request (Some 7) None)
              (order_by Question.id (questions st)) = []
            ↔ (length (questions st) ≤ 60)%nat) as Hpage.
    { rewrite <-!length_zero_iff_nil, paginate_questions_length_eq,
        order_by_length. unfold slice_bound. simpl. lia. }
    case_bool_decide as E; simpl.
    + apply Hpage in E. done.
    + split; [by intros [? _]|]. intros Hle. by apply Hpage in Hle.
Qed.

(** X23: what the tests of the lookups need of the store:
    [test_search] passes exactly when some question's text contains
    [what], letter case aside, and [test_search_404] exactly when no
    question's text contains [ssag]; [test_questions_in_category] passes
    exactly when the store holds one category of id 1 and its type is
    [Science]; [test_delete_question] passes exactly when the store holds
    one question of id 4. *)
Theorem test_lookup_fixture (st : store) :
  (test_search st ↔
     ∃ q s, q ∈ questions st ∧ text_of (Question.question q) = Some s
            ∧ substring_ci "What" s = true)
  ∧ (test_search_404 st ↔
     ∀ q s, q ∈ questions st → text_of (Question.question q) = Some s →
            substring_ci "ssag" s = false)
  ∧ (test_questions_in_category st ↔
     ∃ c, filter (λ c, Category.id c = 1) (categories st) = [c]
          ∧ Category.type c = "Science")
  ∧ (test_delete_question st ↔
     ∃ q, filter (λ q, Question.id q = 4) (questions st) = [q]).
Proof.
  assert (∀ t : string, plain_term t = true →
            (search_matches st (VStr t) = [] ↔
             ∀ q s, q ∈ questions st →
                    text_of (Question.question q) = Some s →
                    substring_ci t s = false)) as Hnone.
  { intros t Ht. unfold search_matches. simpl py_str. split.
    - intros E q s Hq Hs. apply not_true_is_false. intros Hsub.
      eapply (filter_nil_not_elem_of _ _ q E); [|done].
      rewrite (ilike_contains _ t Ht), Hs. by apply Is_true_true.
    - intros Hall. apply filter_none. intros q Hq.
      rewrite (ilike_contains _ t Ht).
      destruct (text_of (Question.question q)) as [s|] eqn:Hs;
        [|by intros []].
      rewrite (Hall q s Hq Hs). by intros []. }
  split; [|split; [|split]].
  - unfold test_search. cbv zeta.
    rewrite (client_status _ _ _ _ _ ep_search_questions []) by done.
    rewrite !(client_data _ _ _ _ _ ep_search_questions []) by done.
    cbn [call_view http_args fst]. rewrite search_questions_unfold.
    cbv zeta.
    change (dict_get {[ "searchTerm" := VStr "What" ]} "searchTerm")
      with (VStr "What").
    case_bool_decide as E; simpl.
    + split; [by intros [? _]|]. intros (q & s & Hq & Hs & Hsub).
      pose proof (proj1 (Hnone "What" eq_refl) E q s Hq Hs) as Hno.
      by rewrite Hno in Hsub.
    + split; [|done]. intros _.
      destruct (search_matches st (VStr "What")) as [|q l] eqn:Em; [done|].
      assert (q ∈ search_matches st (VStr "What")) as Hq
        by (rewrite Em; left).
      unfold search_matches in Hq.
      apply list_elem_of_filter in Hq as [Hi Hq]. simpl py_str in Hi.
      rewrite (ilike_contains _ "What" eq_refl) in Hi.
      destruct (text_of (Question.question q)) as [s|] eqn:Hs; [|done].
      exists q, s. split; [done|]. split; [done|]. by apply Is_true_true.
  - unfold test_search_404. cbv zeta.
    rewrite (client_status _ _ _ _ _ ep_search_questions []) by done.
    rewrite !(client_data _ _ _ _ _ ep_search_questions []) by done.
    cbn [call_view http_args fst]. rewrite search_questions_unfold.
    cbv zeta.
    change (dict_get {[ "searchTerm" := VStr "ssag" ]} "searchTerm")
      with (VStr "ssag").
    rewrite <-(Hnone "ssag" eq_refl).
    case_bool_decide as E; simpl; [done|]. split; [by intros [? _]|done].
  - unfold test_questions_in_category. cbv zeta.
    rewrite (client_status _ _ _ _ _ ep_get_questions_by_category [1])
      by done.
    rewrite !(client_data _ _ _ _ _ ep_get_questions_by_category [1])
      by done.
    unfold status, call_view, get_questions_by_category. cbn [fst].
    destruct (filter _ (categories st)) as [|c [|c' l]]; simpl.
    + split; [by intros [? _]|]. by intros (c & ? & _).
    + split.
      * intros (_ & _ & Ht). exists c. split; [done|].
        assert (Some (FStr (Category.type c)) = Some (FStr "Science"))
          as [= ->] by exact Ht. done.
      * intros (c' & [= <-] & Ht). rewrite Ht. done.
    + split; [by intros [? _]|]. by intros (c0 & ? & _).
  - unfold test_delete_question, serve.
    change (dispatch _ _) with
      (inr (ep_delete_question, [4]) : Z + endpoint * list Z).
    cbn [call_view]. unfold delete_question.
    destruct (filter _ (questions st)) as [|q [|q' l]] eqn:E; simpl.
    + split; [by intros [? _]|]. by intros [q ?].
    + split; [intros _; by exists q|]. intros _.
      split; [done|]. split; [done|].
      rewrite filter_none; [done|].
      intros r [Hr _]%list_elem_of_filter Hid. apply Hr. rewrite Hid.
      assert (q ∈ filter (λ q, Question.id q = 4) (questions st)) as Hq
        by (rewrite E; left).
      by apply list_elem_of_filter in Hq as [-> _].
    + split; [by intros [? _]|]. by intros [q0 ?].
Qed.

End TestProperties.
(** * The handlers on sample requests *)

(** Page -1 of twenty-five questions is not empty: the slice runs from
    the twentieth to the tenth position before the end. *)
Example paginate_negative_page :
  Question.id <$> paginate_questions (Request (Some (-1)) None) many_questions
    = [6; 7; 8; 9; 10; 11; 12; 13; 14; 15]
  ∧ paginate_questions (Request (Some 0) None) many_questions = []
  ∧ Question.id <$> paginate_questions (Request (Some 3) None) many_questions
    = [21; 22; 23; 24; 25]
  ∧ paginate_questions (Request (Some 4) None) many_questions = [].
Proof. by vm_compute. Qed.

(** Page 1 of the small store, and a page beyond it. *)
Lemma get_questions_page_witness :
  get_questions small_store (Request None None) =
    Return 200 [("success", FBool true);
                ("questions",
                 FQuestions [sample_question 1; sample_question 2]);
                ("total_questions", FInt 2);
                ("categories",
                 FCategories (categories_dict [science; art]))]
  ∧ get_questions small_store (Request (Some 7) None) = Abort 404.
Proof.
  split.
  - destruct (get_questions_page small_store (Request None None))
      as [Hpage _].
    destruct Hpage as (_ & E & _); [by vm_compute|]. exact E.
  - destruct (get_questions_page small_store (Request (Some 7) None))
      as [_ Hnone].
    destruct Hnone as [E _]; [by vm_compute|]. exact E.
Defined.

(** The categories of the small store, and of a store without any. *)
Lemma get_categories_mapping_witness :
  get_categories small_store =
    Return 200 [("success", FBool true);
                ("categories", FCategories {[ 1 := "Science"; 2 := "Art" ]})]
  ∧ get_categories (Store [] [] 1) = Abort 404.
Proof.
  split.
  - destruct (get_categories_mapping small_store) as [Hsome _].
    destruct Hsome as [E _]; [by vm_compute|]. rewrite E. by vm_compute.
  - destruct (get_categories_mapping (Store [] [] 1)) as [_ Hnone].
    destruct Hnone as [E _]; [done|]. exact E.
Defined.

(** Deleting a question of the small store, and one it does not hold. *)
Lemma delete_question_outcome_witness :
  (delete_question small_store 2).1 =
    Return 200 [("success", FBool true); ("deleted", FInt 2);
                ("total_questions", FInt 1)]
  ∧ questions (delete_question small_store 2).2 = [sample_question 1]
  ∧ delete_question small_store 7 = (Abort 404, small_store).
Proof.
  split; [|split].
  - destruct (delete_question_outcome small_store 2) as [Hin _].
    destruct (Hin (sample_question 2)) as [E _];
      [by apply (bool_decide_unpack _)
      |by left|done|exact E].
  - done.
  - destruct (delete_question_outcome small_store 7) as [_ Hout].
    destruct Hout as [E _]; [by apply (bool_decide_unpack _)|exact E].
Defined.

(** A body whose fields are empty strings, and one with no field at all,
    are inserted and answered with 201. *)
Example create_new_question_empty_fields :
  let empty : gmap string value :=
    list_to_map [("question", VStr ""); ("answer", VStr "");
                 ("category", VStr ""); ("difficulty", VStr "")] in
  (create_new_question small_store (Request None (Some empty))).1 =
    Return 201 [("success", FBool true); ("created", FInt 3);
                ("questions",
                 FQuestions [sample_question 1; sample_question 2;
                             Question.mk 3 (VStr "") (VStr "") (VStr "")
                                         (VStr "")]);
                ("total_questions", FInt 3)]
  ∧ questions (create_new_question small_store (Request None (Some ∅))).2 =
      questions small_store ++ [Question.mk 3 VNone VNone VNone VNone].
Proof. by vm_compute. Qed.

(** C8 (counterexample): a creation request that names page 2 is answered
    with an empty list of questions, though the first page of the three
    questions then stored is not empty. *)
Lemma create_new_question_page_counterexample :
  (create_new_question small_store (Request (Some 2) (Some full_body))).1 =
    Return 201 [("success", FBool true); ("created", FInt 3);
                ("questions", FQuestions []);
                ("total_questions", FInt 3)]
  ∧ Question.id <$>
      take 10 (order_by Question.id
        (questions
           (create_new_question small_store
              (Request (Some 2) (Some full_body))).2))
    = [1; 2; 3].
Proof. by vm_compute. Qed.

(** C5 (counterexample): of the eleven questions of category 1 the
    handler returns ten. *)
Lemma get_questions_by_category_counterexample :
  length (category_matches eleven_store 1) = 11%nat
  ∧ ∃ page,
      get_questions_by_category eleven_store (Request None None) 1 =
        Return 200 [("success", FBool true);
                    ("questions", FQuestions page);
                    ("total_questions", FInt 11);
                    ("current_category", FStr "Science")]
      ∧ length page = 10%nat.
Proof. split; [by vm_compute|]. eexists. by vm_compute. Qed.

(** The questions of category 1 of the small store, and of a category it
    does not hold. *)
Lemma get_questions_by_category_outcome_witness :
  get_questions_by_category small_store (Request None None) 1 =
    Return 200 [("success", FBool true);
                ("questions",
                 FQuestions [sample_question 2; sample_question 1]);
                ("total_questions", FInt 2);
                ("current_category", FStr "Science")]
  ∧ get_questions_by_category small_store (Request None None) 7 =
      Raise UnboundLocalError.
Proof.
  split.
  - destruct (get_questions_by_category_outcome small_store
                (Request None None) 1) as [Hin _].
    destruct (Hin science) as [E _];
      [by apply (bool_decide_unpack _)
      |by left|done|exact E].
  - destruct (get_questions_by_category_outcome small_store
                (Request None None) 7) as [_ Hout].
    destruct Hout as [E _]; [by apply (bool_decide_unpack _)|exact E].
Defined.

(** A quiz in category 2 of the mixed store offers the question of that
    category only, a quiz in category 0 offers both questions, and after
    both questions of the small store the quiz is over. *)
Lemma play_quizzes_game_choice_witness :
  quiz_candidates mixed_store (VStr "2") [] = [art_question]
  ∧ play_quizzes_game mixed_store (quiz_body (VStr "2") []) 0 =
      Return 200 [("success", FBool true);
                  ("question", FQuestion art_question)]
  ∧ quiz_candidates mixed_store (VInt 0) []
      = [science_question; art_question]
  ∧ play_quizzes_game small_store (quiz_body (VStr "1") [1; 2]) 0 =
      Return 200 [("success", FBool true)].
Proof.
  destruct (play_quizzes_game_choice mixed_store ∅ (VStr "2") [] 0)
    as (_ & Hcat & _ & Hsome & _).
  destruct (play_quizzes_game_choice mixed_store ∅ (VInt 0) [] 0)
    as (Hzero & _).
  destruct (play_quizzes_game_choice small_store ∅ (VStr "1") [1; 2] 0)
    as (_ & _ & _ & _ & _ & _ & Hnone).
  split; [|split; [|split]].
  - rewrite Hcat by done. by vm_compute.
  - destruct Hsome as (q & Hq & E & _); [by vm_compute|vm_compute; lia|].
    unfold quiz_body. rewrite E. by injection Hq as <-.
  - rewrite Hzero by (by left). by vm_compute.
  - destruct Hnone as [E _]; [by vm_compute|exact E].
Defined.

(** A search that matches eleven questions reports a total of ten. *)
Lemma search_total_is_page_length_witness :
  length (search_matches eleven_store (VStr "WHO")) = 11%nat
  ∧ ∃ page,
      search_questions eleven_store (Request None (Some (search_body "WHO")))
        = Return 200 [("success", FBool true);
                      ("questions", FQuestions page);
                      ("total_questions", FInt 10)]
      ∧ length page = 10%nat.
Proof.
  split; [by vm_compute|].
  edestruct (search_total_is_page_length eleven_store
               (Request None (Some (search_body "WHO"))) 200)
    as (input & page & _ & _ & E & _); [by vm_compute|].
  eexists. split; [by vm_compute|done].
Defined.

(** A plain term that occurs in a question, and one that does not. *)
Lemma search_matches_plain_witness :
  sample_question 1 ∈ search_matches small_store (VStr "WROTE")
  ∧ search_matches small_store (VStr "wrote it twice") = [].
Proof.
  split.
  - apply (search_matches_plain small_store "WROTE" (sample_question 1));
      [done|done|by intros s [= <-]|].
    split; [by right; left|]. by eexists.
  - done.
Defined.

(** The envelope of 404. *)
Lemma error_handlers_envelope_witness :
  respond (Abort 404) =
    (404, Some [("success", FBool false); ("error", FInt 404);
                ("message", FStr "resource not found")]).
Proof.
  destruct (error_handlers_envelope 404 not_found) as (_ & _ & E);
    [by left|exact E].
Defined.


(** A [GET] of [/categories] leaves the small store as it is. *)
Lemma serve_store_changes_witness :
  (serve small_store (Http GET ["categories"] (Request None None) None)
         0).2 = small_store.
Proof.
  destruct (serve_store_changes small_store
              (Http GET ["categories"] (Request None None) None) 0)
    as [_ Hget]; [by repeat constructor|]. by apply Hget.
Defined.

(** After question 2 the small store has fewer candidates. *)
Lemma quiz_candidates_decrease_witness :
  (length (quiz_candidates small_store (VInt 0) [2%Z])
     < length (quiz_candidates small_store (VInt 0) []))%nat.
Proof.
  apply (quiz_candidates_decrease small_store (VInt 0) [] (sample_question 2)).
  by left.
Defined.

(** After both questions of the small store the quiz is over. *)
Lemma play_quizzes_game_exhausted_witness :
  play_quizzes_game small_store (quiz_body (VInt 0) [1; 2]) 0
    = Return 200 [("success", FBool true)].
Proof.
  apply (play_quizzes_game_exhausted small_store ∅ (VInt 0) [1; 2] 0).
  intros q Hq. repeat (apply elem_of_cons in Hq as [->|Hq]);
    [by right; left|by left|by apply elem_of_nil in Hq].
Defined.

(** * The application on sample requests *)

Lemma small_store_wf : wf_store small_store.
Proof.
  split; [by apply (bool_decide_unpack _)|].
  repeat constructor; simpl; lia.
Qed.

(** Page 2 of eleven questions holds one question. *)
Lemma get_questions_page_exists_witness :
  1 ≤ default 1 (page_arg (Request (Some 2) None))
  ∧ length (paginate_questions (Request (Some 2) None)
              (order_by Question.id (questions eleven_store))) = 1%nat
  ∧ status (get_questions eleven_store (Request (Some 2) None)) = 200.
Proof.
  split; [simpl; lia|].
  destruct (get_questions_page_exists eleven_store (Request (Some 2) None))
    as (E & _ & Hok); [simpl; lia|].
  split; [by rewrite E|]. apply Hok. simpl. lia.
Defined.

(** Page -1 of eleven questions holds one question too. *)
Lemma get_questions_negative_page_witness :
  default 1 (page_arg (Request (Some (-1)) None)) < 0
  ∧ length (paginate_questions (Request (Some (-1)) None)
              (order_by Question.id (questions eleven_store))) = 1%nat
  ∧ status (get_questions eleven_store (Request (Some (-1)) None)) = 200.
Proof.
  split; [simpl; lia|].
  destruct (get_questions_negative_page eleven_store
              (Request (Some (-1)) None)) as (E & Hok & _); [simpl; lia|].
  split; [by rewrite E|]. apply Hok. simpl. lia.
Defined.

(** Both listings of the small store give the same categories. *)
Lemma categories_field_agrees_witness :
  ∃ body1 body2,
    get_questions small_store (Request None None) = Return 200 body1
    ∧ get_categories small_store = Return 200 body2
    ∧ get_field "categories" body1 = get_field "categories" body2.
Proof.
  do 2 eexists. split; [by vm_compute|]. split; [by vm_compute|].
  refine (proj1 (categories_field_agrees small_store (Request None None)
                   200 200 _ _ _ _ _)).
  - by apply (bool_decide_unpack _).
  - by vm_compute.
  - by vm_compute.
Defined.

(** A term with a wildcard still selects the question that contains it
    as it stands. *)
Lemma search_matches_complete_witness :
  Question.mk 1 (VStr "What is 100% of 5?") (VStr "5") (VInt 1) (VInt 1)
    ∈ search_matches
        (Store [Question.mk 1 (VStr "What is 100% of 5?") (VStr "5")
                            (VInt 1) (VInt 1)] [] 2)
        (VStr "100% OF").
Proof.
  apply (search_matches_complete _ "100% OF" "What is 100% of 5?");
    [done|by left|done|done].
Defined.

(** A search body without a term is answered like a search for
    [None]. *)
Lemma search_questions_missing_term_witness :
  search_questions small_store (Request None (Some ∅)) =
    search_questions small_store
      (Request None (Some (<["searchTerm" := VStr "None"]> ∅))).
Proof.
  assert (dict_get (∅ : gmap string value) "searchTerm" = VNone) as Hterm
    by by vm_compute.
  by destruct (search_questions_missing_term small_store None ∅ Hterm)
    as [E _].
Defined.

(** The small store after a creation. *)
Lemma serve_wf_store_witness :
  wf_store
    (serve small_store
       (Http POST ["questions"] (Request None (Some full_body)) None) 0).2.
Proof. apply serve_wf_store, small_store_wf. Defined.

(** A creation in the small store, undone. *)
Lemma create_then_delete_witness :
  delete_question
    (create_new_question small_store (Request None (Some full_body))).2 3
  = (Return 200 [("success", FBool true); ("deleted", FInt 3);
                 ("total_questions", FInt 2)],
     Store (questions small_store) (categories small_store) 4).
Proof.
  by destruct (create_then_delete small_store None full_body small_store_wf)
    as [_ E].
Defined.

(** The listing of the small store after a creation. *)
Lemma create_new_question_listing_witness :
  Question.id <$>
    order_by Question.id
      (questions
         (create_new_question small_store
            (Request None (Some full_body))).2)
  = [1; 2; 3].
Proof.
  destruct (create_new_question_listing small_store full_body small_store_wf)
    as [E _].
  rewrite E. by vm_compute.
Defined.

(** The tests on the small store: it has a category and fewer than
    sixty-one questions, no category of id 100 and no question of id 4. *)
Example tests_on_small_store :
  test_get_all_categories small_store
  ∧ test_get_questions_pagebypage small_store
  ∧ test_number_of_page_exceed small_store
  ∧ test_questions_in_category small_store
  ∧ ¬ test_delete_question small_store.
Proof.
  split; [by vm_compute|]. split.
  { split; [done|]. split; [done|]. split; [by eexists|].
    split; [done|]. eexists. split; [done|]. by vm_compute. }
  split; [done|]. split; [done|]. by intros [? _].
Qed.
